(** * Projet_api: the route handlers over the theaters, movies and comments
    collections of the sample_mflix database.

    The development embeds every route handler of the repository as a
    function in a small state-and-exception monad over an in-memory document
    store, and proves the properties of the request-validation and
    response-shaping contract. *)

From Stdlib Require Import ZArith String Ascii List Bool Lia.
From stdpp Require Import gmap strings list.

Local Open Scope string_scope.
Local Open Scope list_scope.

(** ** Values and documents *)

(** BSON / JSON values as the handlers see them.  Numbers are integers here
    (no handler computes with them); [VUndefined] is what reading a missing
    property gives; [VOid] carries the canonical lower-case
    hexadecimal form of an ObjectId and [VDate] a timestamp in milliseconds. *)
#[warnings="-register-all"]
Inductive value :=
| VUndefined
| VNull
| VBool (b : bool)
| VNum (n : Z)
| VStr (s : string)
| VOid (hex : string)
| VDate (ms : Z)
| VArr (items : list value)
| VObj (fields : gmap string value).

Abbreviation document := (gmap string value).

Fixpoint value_eq_dec (x y : value) {struct x} : Decision (x = y).
Proof.
  refine
    (match x, y with
     | VUndefined, VUndefined => left _
     | VNull, VNull => left _
     | VBool a, VBool b => cast_if (decide (a = b))
     | VNum a, VNum b => cast_if (decide (a = b))
     | VStr a, VStr b => cast_if (decide (a = b))
     | VOid a, VOid b => cast_if (decide (a = b))
     | VDate a, VDate b => cast_if (decide (a = b))
     | VArr a, VArr b =>
         cast_if (@decide (a = b) (@list_eq_dec _ value_eq_dec a b))
     | VObj a, VObj b =>
         cast_if (@decide (a = b) (@gmap_eq_dec _ _ _ _ value_eq_dec a b))
     | _, _ => right _
     end); congruence.
Defined.

#[global] Instance value_eqdec : EqDecision value := value_eq_dec.

(** JavaScript truthiness. *)
Definition truthy (v : value) : bool :=
  match v with
  | VUndefined | VNull => false
  | VBool b => b
  | VNum n => negb (n =? 0)%Z
  | VStr s => negb (String.eqb s "")
  | _ => true
  end.

(** [typeof v === 'string'] *)
Definition is_string (v : value) : bool :=
  match v with VStr _ => true | _ => false end.

(** ** Results of operations that may throw *)

Inductive outcome (A : Type) :=
| Ok (a : A)
| Throw (msg : string).
Arguments Ok {A} a.
Arguments Throw {A} msg.

(** The value of a property read that does not throw: [v.k] for [v] other
    than [null] and [undefined]. *)
Definition prop (v : value) (k : string) : value :=
  match v with
  | VObj o => default VUndefined (o !! k)
  | _ => VUndefined
  end.

(** Property read [v.k]: a [TypeError] on [null] and [undefined]. *)
Definition get_prop (v : value) (k : string) : outcome value :=
  match v with
  | VNull =>
      Throw ("Cannot read properties of null (reading '" +:+ k +:+ "')")
  | VUndefined =>
      Throw ("Cannot read properties of undefined (reading '" +:+ k +:+ "')")
  | _ => Ok (prop v k)
  end.

(** ** Identifier validation *)

Definition is_hex_digit (c : ascii) : bool :=
  let n := N_of_ascii c in
  ((48 <=? n) && (n <=? 57) || (65 <=? n) && (n <=? 70)
   || (97 <=? n) && (n <=? 102))%N.

Fixpoint all_hex (s : string) : bool :=
  match s with
  | EmptyString => true
  | String c s' => is_hex_digit c && all_hex s'
  end.

(** Modelled from the spec: [ObjectId.isValid] belongs to the database
    driver, which is not part of the repository.  The spec gives its
    contract on strings: a syntactically valid canonical identifier is a
    24-character hexadecimal string. *)
Definition isValid (id : string) : bool :=
  (String.length id =? 24)%nat && all_hex id.

Definition lower_hex (c : ascii) : ascii :=
  let n := N_of_ascii c in
  if ((65 <=? n) && (n <=? 70))%N then ascii_of_N (n + 32) else c.

Fixpoint toHexString (s : string) : string :=
  match s with
  | EmptyString => EmptyString
  | String c s' => String (lower_hex c) (toHexString s')
  end.

(** Modelled from the spec: [new ObjectId(id)] of the driver, on an
    identifier that passed [isValid]; two spellings of the same hexadecimal
    digits denote the same identifier. *)
Definition new_ObjectId (id : string) : value := VOid (toHexString id).

(** ** The document store

    The store and its client are external to the repository.  They are
    modelled here from what the spec says of them: three collections of
    documents in their natural order, equality lookups, and the primitives
    find, findOne, updateOne and deleteOne, each acting on the first
    document that satisfies its query. *)

Inductive collection := Theaters | Movies | Comments.

Record Db := mkDb {
  theaters : list document;
  movies : list document;
  comments : list document
}.

Definition coll (c : collection) (db : Db) : list document :=
  match c with
  | Theaters => theaters db
  | Movies => movies db
  | Comments => comments db
  end.

Definition set_coll (c : collection) (docs : list document) (db : Db) : Db :=
  match c with
  | Theaters => mkDb docs (movies db) (comments db)
  | Movies => mkDb (theaters db) docs (comments db)
  | Comments => mkDb (theaters db) (movies db) docs
  end.

(** Modelled from the spec: the query documents of the store client.  A
    query is a conjunction of equalities; [{}] is [[]].  [Field k] is the
    key [k]; [ArrayField arr k] is the dotted key ['arr.k'], which selects
    documents whose array [arr] holds an embedded document with field [k]
    equal to the value. *)
Inductive selector :=
| Field (k : string)
| ArrayField (arr k : string).

Definition query := list (selector * value).

Definition elem_has (k : string) (v : value) (e : value) : bool :=
  match e with
  | VObj o => bool_decide (o !! k = Some v)
  | _ => false
  end.

Definition sel_matches (d : document) (c : selector * value) : bool :=
  match c with
  | (Field k, v) => bool_decide (d !! k = Some v)
  | (ArrayField arr k, v) =>
      match d !! arr with
      | Some (VArr l) => existsb (elem_has k v) l
      | _ => false
      end
  end.

(** Modelled from the spec: whether a document satisfies a query of the
    store client, an equality lookup on each key of the query. *)
Definition matches (q : query) (d : document) : bool :=
  forallb (sel_matches d) q.

(** Modelled from the spec: the element of array [arr] that the positional
    operator [$] of the store denotes is the first one that satisfies the
    query's conditions on [arr]. *)
Definition elem_matches (q : query) (arr : string) (e : value) : bool :=
  forallb
    (fun c : selector * value =>
       match c with
       | (ArrayField a k, v) =>
           if decide (a = arr) then elem_has k v e else true
       | _ => true
       end) q.

(** Modelled from the spec: the update documents of the store client.
    [SetFields b] is [{ $set: b }], a partial update with the fields of [b];
    [SetPositional arr fs] is [{ $set: { 'arr.$.k': v, ... } }] for the
    fields [k := v] of [fs], an update in place of one element of [arr]. *)
Inductive update :=
| SetFields (body : value)
| SetPositional (arr : string) (fs : gmap string value).

Fixpoint set_first (p : value -> bool) (fs : gmap string value)
    (l : list value) : list value :=
  match l with
  | [] => []
  | e :: rest =>
      if p e then
        match e with
        | VObj o => VObj (fs ∪ o) :: rest
        | _ => e :: rest
        end
      else e :: set_first p fs rest
  end.

(** Modelled from the spec: the effect of an update document on the
    document it is applied to.  The fields named are set, the others kept. *)
Definition apply_update (q : query) (u : update) (d : document)
    : outcome document :=
  match u with
  | SetFields (VObj b) => Ok (b ∪ d)
  | SetFields _ => Throw "Modifiers operate on fields but we found another type"
  | SetPositional arr fs =>
      match d !! arr with
      | Some (VArr l) =>
          Ok (<[arr := VArr (set_first (elem_matches q arr) fs l)]> d)
      | _ =>
          Throw "The positional operator did not find the match needed from the query."
      end
  end.

Record UpdateResult := mkUpdateResult {
  matchedCount : Z;
  modifiedCount : Z
}.

Record DeleteResult := mkDeleteResult { deletedCount : Z }.

(** Modelled from the spec: [find(q).toArray()] of the store client, with
    an optional [.limit(n)]: the documents that satisfy [q], in the order of
    the collection, cut to the first [n]. *)
Definition find_docs (q : query) (limit : option nat) (docs : list document)
    : list document :=
  let found := List.filter (matches q) docs in
  match limit with
  | Some n => take n found
  | None => found
  end.

(** Modelled from the spec: [findOne(q)] of the store client, the first
    document that satisfies [q], if any. *)
Definition findOne_docs (q : query) (docs : list document)
    : option document :=
  List.find (matches q) docs.

(** Modelled from the spec: [updateOne(q, u)] of the store client updates
    the first document that satisfies [q] and reports whether one matched
    and whether it changed. *)
Fixpoint updateOne_docs (q : query) (u : update) (docs : list document)
    : outcome (list document * UpdateResult) :=
  match docs with
  | [] => Ok ([], mkUpdateResult 0 0)
  | d :: rest =>
      if matches q d then
        match apply_update q u d with
        | Ok d' =>
            Ok (d' :: rest,
                mkUpdateResult 1 (if decide (d' = d) then 0 else 1))
        | Throw m => Throw m
        end
      else
        match updateOne_docs q u rest with
        | Ok (rest', r) => Ok (d :: rest', r)
        | Throw m => Throw m
        end
  end.

(** Modelled from the spec: [deleteOne(q)] of the store client removes
    the first document that satisfies [q] and reports how many it removed. *)
Fixpoint deleteOne_docs (q : query) (docs : list document)
    : list document * DeleteResult :=
  match docs with
  | [] => ([], mkDeleteResult 0)
  | d :: rest =>
      if matches q d then (rest, mkDeleteResult 1)
      else
        let '(rest', r) := deleteOne_docs q rest in
        (d :: rest', r)
  end.

(** ** Requests, responses and the handler monad *)

(** The response envelope [{ status, message?, error?, data? }]. *)
Record Body := mkBody {
  status : Z;
  message : option string;
  error : option string;
  data : option value
}.

Record Response := mkResponse {
  body : Body;
  transport : Z
}.

(** [NextResponse.json(body, init)]: the transport status is [init.status]
    when given and 200 otherwise. *)
Definition NextResponse_json (b : Body) (init : option Z) : Response :=
  mkResponse b (default 200%Z init).

(** An object literal with the given properties. *)
Definition obj (props : list (string * value)) : value :=
  VObj (list_to_map props).

(** The request as the handlers use it: [json] is the settled result of
    [request.json()], the parsed body or the parser's error. *)
Record Request := mkRequest { json : outcome value }.

(** Store calls issued by a handler, in order. *)
Inductive call :=
| CallFind (c : collection) (q : query) (limit : option nat)
| CallFindOne (c : collection) (q : query)
| CallUpdateOne (c : collection) (q : query) (u : update)
| CallDeleteOne (c : collection) (q : query).

(** Modelled from the spec: the module lib/mongodb that exports
    [clientPromise] is not among the sources; the spec leaves the life of
    the connection to the store client.  [clientPromise] is the settled
    result of that promise: the connection error, or the contents of the
    database the client gives access to.  [now] is the clock read by
    [new Date()], and [calls] the store calls issued so far. *)
Record World := mkWorld {
  clientPromise : outcome Db;
  now : Z;
  calls : list call
}.

Definition M (A : Type) : Type := World -> outcome A * World.

Definition ret {A} (a : A) : M A := fun w => (Ok a, w).

Definition bind {A B} (m : M A) (k : A -> M B) : M B :=
  fun w =>
    match m w with
    | (Ok a, w') => k a w'
    | (Throw msg, w') => (Throw msg, w')
    end.

Definition throw {A} (msg : string) : M A := fun w => (Throw msg, w).

(** [try { body } catch (error) { handler(error.message) }] *)
Definition try_catch {A} (body : M A) (handler : string -> M A) : M A :=
  fun w =>
    match body w with
    | (Ok a, w') => (Ok a, w')
    | (Throw msg, w') => handler msg w'
    end.

Definition lift {A} (o : outcome A) : M A := fun w => (o, w).

Declare Scope handler_scope.
Delimit Scope handler_scope with handler.
Notation "x <- m ;; k" := (bind m (fun x => k))
  (at level 100, m at next level, right associativity) : handler_scope.
Notation "m ;;; k" := (bind m (fun _ => k))
  (at level 100, right associativity) : handler_scope.
Local Open Scope handler_scope.

Definition log (c : call) (w : World) : World :=
  mkWorld (clientPromise w) (now w) (calls w ++ [c]).

(** [await clientPromise] *)
Definition await_clientPromise : M unit :=
  fun w =>
    match clientPromise w with
    | Ok _ => (Ok tt, w)
    | Throw msg => (Throw msg, w)
    end.

(** [await request.json()] *)
Definition request_json (request : Request) : M value :=
  lift (json request).

(** [new Date()] *)
Definition new_Date : M value := fun w => (Ok (VDate (now w)), w).

(** [db.collection(c).find(q).limit(n).toArray()] *)
Definition find (c : collection) (q : query) (limit : option nat)
    : M (list document) :=
  fun w =>
    let w' := log (CallFind c q limit) w in
    match clientPromise w with
    | Ok db => (Ok (find_docs q limit (coll c db)), w')
    | Throw msg => (Throw msg, w')
    end.

(** [db.collection(c).findOne(q)] *)
Definition findOne (c : collection) (q : query) : M (option document) :=
  fun w =>
    let w' := log (CallFindOne c q) w in
    match clientPromise w with
    | Ok db => (Ok (findOne_docs q (coll c db)), w')
    | Throw msg => (Throw msg, w')
    end.

(** [db.collection(c).updateOne(q, u)] *)
Definition updateOne (c : collection) (q : query) (u : update)
    : M UpdateResult :=
  fun w =>
    let w' := log (CallUpdateOne c q u) w in
    match clientPromise w with
    | Ok db =>
        match updateOne_docs q u (coll c db) with
        | Ok (docs, r) =>
            (Ok r, mkWorld (Ok (set_coll c docs db)) (now w') (calls w'))
        | Throw msg => (Throw msg, w')
        end
    | Throw msg => (Throw msg, w')
    end.

(** [db.collection(c).deleteOne(q)] *)
Definition deleteOne (c : collection) (q : query) : M DeleteResult :=
  fun w =>
    let w' := log (CallDeleteOne c q) w in
    match clientPromise w with
    | Ok db =>
        let '(docs, r) := deleteOne_docs q (coll c db) in
        (Ok r, mkWorld (Ok (set_coll c docs db)) (now w') (calls w'))
    | Throw msg => (Throw msg, w')
    end.


(** ** The route handlers *)

(** The catch-all clauses, in the two wordings of the message and the two
    transport conventions the sources use. *)
Definition internal_error (text : string) (init : option Z) (msg : string)
    : M Response :=
  ret (NextResponse_json (mkBody 500 (Some text) (Some msg) None) init).

Definition by_id (id : string) : query := [(Field "_id", new_ObjectId id)].

Definition comment_of_movie (idComment idMovie : string) : query :=
  [(Field "_id", new_ObjectId idComment);
   (Field "movie_id", new_ObjectId idMovie)].

(** src/unnamed/part_000 (app/api/theaters/route.ts) *)
Module TheatersRoute.

Definition GET : M Response :=
  try_catch
    (await_clientPromise ;;;
     theaters <- find Theaters [] (Some 10%nat) ;;
     ret (NextResponse_json
            (mkBody 200 None None (Some (VArr (VObj <$> theaters)))) None))
    (internal_error "Erreur interne du serveur" None).

End TheatersRoute.

(** src/app/api/movies/route.ts *)
Module MoviesRoute.

Definition GET : M Response :=
  try_catch
    (await_clientPromise ;;;
     movies <- find Movies [] (Some 10%nat) ;;
     ret (NextResponse_json
            (mkBody 200 None None (Some (VArr (VObj <$> movies)))) None))
    (internal_error "Internal Server Error" None).

Definition POST : M Response :=
  ret (NextResponse_json
         (mkBody 405 (Some "Method Not Allowed")
            (Some "POST method is not supported") None) None).

Definition PUT : M Response :=
  ret (NextResponse_json
         (mkBody 405 (Some "Method Not Allowed")
            (Some "PUT method is not supported") None) None).

Definition DELETE : M Response :=
  ret (NextResponse_json
         (mkBody 405 (Some "Method Not Allowed")
            (Some "DELETE method is not supported") None) None).

End MoviesRoute.

(** src/app/api/theaters/[idTheater]/route.ts: every response travels with
    transport status 200. *)
Module TheaterRoute.

Definition GET (idTheater : string) : M Response :=
  try_catch
    (await_clientPromise ;;;
     if negb (isValid idTheater) then
       ret (NextResponse_json
              (mkBody 400 (Some "Invalid Theaters ID")
                 (Some "ID format is incorrect") None) None)
     else
       theater <- findOne Theaters (by_id idTheater) ;;
       match theater with
       | None =>
           ret (NextResponse_json
                  (mkBody 404 (Some "Theater not found")
                     (Some "No Theater found with the given ID") None) None)
       | Some theater =>
           ret (NextResponse_json
                  (mkBody 200 None None
                     (Some (obj [("theater", VObj theater)]))) None)
       end)
    (internal_error "Internal Server Error" None).

End TheaterRoute.

(** src/unnamed/part_001, the other variant of the same route: the
    transport status follows the status of the body. *)
Module TheaterRouteT.

Definition GET (idTheater : string) : M Response :=
  try_catch
    (await_clientPromise ;;;
     if negb (isValid idTheater) then
       ret (NextResponse_json
              (mkBody 400 (Some "Invalid theater ID")
                 (Some "ID format is incorrect") None) (Some 400%Z))
     else
       theater <- findOne Theaters (by_id idTheater) ;;
       match theater with
       | None =>
           ret (NextResponse_json
                  (mkBody 404 (Some "Theater not found")
                     (Some "No theater found with the given ID") None)
                  (Some 404%Z))
       | Some theater =>
           ret (NextResponse_json
                  (mkBody 200 None None
                     (Some (obj [("theater", VObj theater)]))) None)
       end)
    (internal_error "Internal Server Error" (Some 500%Z)).

End TheaterRouteT.

(** src/app/api/movies/[idMovie]/comments/route.ts *)
Module CommentsRoute.

Definition GET (idMovie : string) : M Response :=
  try_catch
    (await_clientPromise ;;;
     if negb (isValid idMovie) then
       ret (NextResponse_json
              (mkBody 400 (Some "Invalid movie ID")
                 (Some "ID format is incorrect") None) None)
     else
       comments <- find Comments [(Field "movie_id", new_ObjectId idMovie)]
                     None ;;
       ret (NextResponse_json
              (mkBody 200 None None
                 (Some (obj [("comments", VArr (VObj <$> comments))])))
              None))
    (internal_error "Internal Server Error" None).

End CommentsRoute.

(** src/app/api/movies/[idMovie]/comments/[idComment]/route.ts: every
    response travels with transport status 200; PUT repeats POST. *)
Module CommentRoute.

Definition GET (idMovie idComment : string) : M Response :=
  try_catch
    (await_clientPromise ;;;
     if negb (isValid idMovie) then
       ret (NextResponse_json
              (mkBody 400 (Some "Invalid movie ID")
                 (Some "Movie ID format is incorrect") None) None)
     else if negb (isValid idComment) then
       ret (NextResponse_json
              (mkBody 400 (Some "Invalid comment ID")
                 (Some "Comment ID format is incorrect") None) None)
     else
       movie <- findOne Movies (by_id idMovie) ;;
       match movie with
       | None =>
           ret (NextResponse_json
                  (mkBody 404 (Some "Movie not found")
                     (Some "No movie found with the given ID") None) None)
       | Some _ =>
           comment <- findOne Comments (comment_of_movie idComment idMovie) ;;
           match comment with
           | None =>
               ret (NextResponse_json
                      (mkBody 404 (Some "Comment not found")
                         (Some "No comment found with the given ID for this movie")
                         None) None)
           | Some comment =>
               ret (NextResponse_json
                      (mkBody 200 None None
                         (Some (obj [("comment", VObj comment)]))) None)
           end
       end)
    (internal_error "Internal Server Error" None).

Definition POST (request : Request) (idMovie idComment : string)
    : M Response :=
  try_catch
    (if String.eqb idMovie "" || String.eqb idComment "" then
       ret (NextResponse_json
              (mkBody 400 (Some "Movie ID and Comment ID are required")
                 None None) None)
     else if negb (isValid idMovie) || negb (isValid idComment) then
       ret (NextResponse_json
              (mkBody 400 (Some "Invalid ID format") None None) None)
     else
       body <- request_json request ;;
       if negb (truthy body)
          || (negb (truthy (prop body "text"))
              && negb (truthy (prop body "user"))) then
         ret (NextResponse_json
                (mkBody 400
                   (Some "Request body must contain at least text or user field")
                   None None) None)
       else
         await_clientPromise ;;;
         result <- updateOne Comments (comment_of_movie idComment idMovie)
                     (SetFields body) ;;
         if (matchedCount result =? 0)%Z then
           ret (NextResponse_json
                  (mkBody 404 (Some "Movie or comment not found") None None)
                  None)
         else
           ret (NextResponse_json
                  (mkBody 200 (Some "Comment updated successfully") None
                     (Some (obj [("modified",
                                  VBool (0 <? modifiedCount result)%Z);
                                 ("idMovie", VStr idMovie);
                                 ("idComment", VStr idComment)]))) None))
    (internal_error "Internal server error" None).

Definition DELETE (idMovie idComment : string) : M Response :=
  try_catch
    (await_clientPromise ;;;
     if negb (isValid idMovie) then
       ret (NextResponse_json
              (mkBody 400 (Some "Invalid movie ID")
                 (Some "Movie ID format is incorrect") None) None)
     else if negb (isValid idComment) then
       ret (NextResponse_json
              (mkBody 400 (Some "Invalid comment ID")
                 (Some "Comment ID format is incorrect") None) None)
     else
       movie <- findOne Movies (by_id idMovie) ;;
       match movie with
       | None =>
           ret (NextResponse_json
                  (mkBody 404 (Some "Movie not found")
                     (Some "No movie found with the given ID") None) None)
       | Some _ =>
           result <- deleteOne Comments (comment_of_movie idComment idMovie) ;;
           if (deletedCount result =? 0)%Z then
             ret (NextResponse_json
                    (mkBody 404 (Some "Comment not found")
                       (Some "No comment found with the given ID for this movie")
                       None) None)
           else
             ret (NextResponse_json
                    (mkBody 200 (Some "Comment deleted successfully")
                       None None) None)
       end)
    (internal_error "Internal Server Error" None).

(** PUT, variant A: the comment as a document of its own. *)
Definition PUT (request : Request) (idMovie idComment : string)
    : M Response :=
  try_catch
    (if String.eqb idMovie "" || String.eqb idComment "" then
       ret (NextResponse_json
              (mkBody 400 (Some "Movie ID and Comment ID are required")
                 None None) None)
     else if negb (isValid idMovie) || negb (isValid idComment) then
       ret (NextResponse_json
              (mkBody 400 (Some "Invalid ID format") None None) None)
     else
       body <- request_json request ;;
       if negb (truthy body)
          || (negb (truthy (prop body "text"))
              && negb (truthy (prop body "user"))) then
         ret (NextResponse_json
                (mkBody 400
                   (Some "Request body must contain at least text or user field")
                   None None) None)
       else
         await_clientPromise ;;;
         result <- updateOne Comments (comment_of_movie idComment idMovie)
                     (SetFields body) ;;
         if (matchedCount result =? 0)%Z then
           ret (NextResponse_json
                  (mkBody 404 (Some "Movie or comment not found") None None)
                  None)
         else
           ret (NextResponse_json
                  (mkBody 200 (Some "Comment updated successfully") None
                     (Some (obj [("modified",
                                  VBool (0 <? modifiedCount result)%Z);
                                 ("idMovie", VStr idMovie);
                                 ("idComment", VStr idComment)]))) None))
    (internal_error "Internal server error" None).

End CommentRoute.

(** src/unnamed/part_002, the other variant of the same route: the
    transport status follows the status of the body; PUT is variant B, on
    the comment embedded in its movie. *)
Module CommentRouteT.

Definition GET (idMovie idComment : string) : M Response :=
  try_catch
    (await_clientPromise ;;;
     if negb (isValid idMovie) then
       ret (NextResponse_json
              (mkBody 400 (Some "Invalid movie ID")
                 (Some "Movie ID format is incorrect") None) (Some 400%Z))
     else if negb (isValid idComment) then
       ret (NextResponse_json
              (mkBody 400 (Some "Invalid comment ID")
                 (Some "Comment ID format is incorrect") None) (Some 400%Z))
     else
       movie <- findOne Movies (by_id idMovie) ;;
       match movie with
       | None =>
           ret (NextResponse_json
                  (mkBody 404 (Some "Movie not found")
                     (Some "No movie found with the given ID") None)
                  (Some 404%Z))
       | Some _ =>
           comment <- findOne Comments (comment_of_movie idComment idMovie) ;;
           match comment with
           | None =>
               ret (NextResponse_json
                      (mkBody 404 (Some "Comment not found")
                         (Some "No comment found with the given ID for this movie")
                         None) (Some 404%Z))
           | Some comment =>
               ret (NextResponse_json
                      (mkBody 200 None None
                         (Some (obj [("comment", VObj comment)]))) None)
           end
       end)
    (internal_error "Internal Server Error" (Some 500%Z)).

Definition POST (request : Request) (idMovie idComment : string)
    : M Response :=
  try_catch
    (if String.eqb idMovie "" || String.eqb idComment "" then
       ret (NextResponse_json
              (mkBody 400 (Some "Movie ID and Comment ID are required")
                 None None) (Some 400%Z))
     else if negb (isValid idMovie) || negb (isValid idComment) then
       ret (NextResponse_json
              (mkBody 400 (Some "Invalid ID format") None None) (Some 400%Z))
     else
       body <- request_json request ;;
       if negb (truthy body)
          || (negb (truthy (prop body "text"))
              && negb (truthy (prop body "user"))) then
         ret (NextResponse_json
                (mkBody 400
                   (Some "Request body must contain at least text or user field")
                   None None) (Some 400%Z))
       else
         await_clientPromise ;;;
         result <- updateOne Comments (comment_of_movie idComment idMovie)
                     (SetFields body) ;;
         if (matchedCount result =? 0)%Z then
           ret (NextResponse_json
                  (mkBody 404 (Some "Movie or comment not found") None None)
                  (Some 404%Z))
         else
           ret (NextResponse_json
                  (mkBody 200 (Some "Comment updated successfully") None
                     (Some (obj [("modified",
                                  VBool (0 <? modifiedCount result)%Z);
                                 ("idMovie", VStr idMovie);
                                 ("idComment", VStr idComment)]))) None))
    (internal_error "Internal server error" (Some 500%Z)).

Definition DELETE (idMovie idComment : string) : M Response :=
  try_catch
    (await_clientPromise ;;;
     if negb (isValid idMovie) then
       ret (NextResponse_json
              (mkBody 400 (Some "Invalid movie ID")
                 (Some "Movie ID format is incorrect") None) (Some 400%Z))
     else if negb (isValid idComment) then
       ret (NextResponse_json
              (mkBody 400 (Some "Invalid comment ID")
                 (Some "Comment ID format is incorrect") None) (Some 400%Z))
     else
       movie <- findOne Movies (by_id idMovie) ;;
       match movie with
       | None =>
           ret (NextResponse_json
                  (mkBody 404 (Some "Movie not found")
                     (Some "No movie found with the given ID") None)
                  (Some 404%Z))
       | Some _ =>
           result <- deleteOne Comments (comment_of_movie idComment idMovie) ;;
           if (deletedCount result =? 0)%Z then
             ret (NextResponse_json
                    (mkBody 404 (Some "Comment not found")
                       (Some "No comment found with the given ID for this movie")
                       None) (Some 404%Z))
           else
             ret (NextResponse_json
                    (mkBody 200 (Some "Comment deleted successfully")
                       None None) None)
       end)
    (internal_error "Internal Server Error" (Some 500%Z)).

(** The query and the update of PUT, variant B. *)
Definition embedded_comment (idMovie idComment : string) : query :=
  [(Field "_id", new_ObjectId idMovie);
   (ArrayField "comments" "_id", new_ObjectId idComment)].

Definition set_text (text date : value) : update :=
  SetPositional "comments"
    (list_to_map [("text", text); ("updatedAt", date)]).

(** PUT, variant B: the comment as an element of its movie's [comments]
    array. *)
Definition PUT (request : Request) (idMovie idComment : string)
    : M Response :=
  try_catch
    (await_clientPromise ;;;
     body <- request_json request ;;
     if negb (isValid idMovie) then
       ret (NextResponse_json
              (mkBody 400 (Some "Invalid movie ID")
                 (Some "Movie ID format is incorrect") None) (Some 400%Z))
     else if negb (isValid idComment) then
       ret (NextResponse_json
              (mkBody 400 (Some "Invalid comment ID")
                 (Some "Comment ID format is incorrect") None) (Some 400%Z))
     else
       text <- lift (get_prop body "text") ;;
       if negb (truthy text) || negb (is_string text) then
         ret (NextResponse_json
                (mkBody 400 (Some "Invalid input")
                   (Some "Comment text is required and must be a string")
                   None) (Some 400%Z))
       else
         date <- new_Date ;;
         result <- updateOne Movies (embedded_comment idMovie idComment)
                     (set_text text date) ;;
         if (matchedCount result =? 0)%Z then
           ret (NextResponse_json
                  (mkBody 404 (Some "Movie or comment not found")
                     (Some "No matching movie or comment with the given IDs")
                     None) (Some 404%Z))
         else
           ret (NextResponse_json
                  (mkBody 200 (Some "Comment updated successfully")
                     None None) None))
    (internal_error "Internal Server Error" (Some 500%Z)).

End CommentRouteT.

(** ** All handlers of the repository *)

(** One constructor per exported handler, with the path parameters and the
    request it reads. *)
Inductive handler :=
| Theaters_GET
| Movies_GET
| Movies_POST
| Movies_PUT
| Movies_DELETE
| Theater_GET (idTheater : string)
| TheaterT_GET (idTheater : string)
| Comments_GET (idMovie : string)
| Comment_GET (idMovie idComment : string)
| Comment_POST (request : Request) (idMovie idComment : string)
| Comment_DELETE (idMovie idComment : string)
| Comment_PUT (request : Request) (idMovie idComment : string)
| CommentT_GET (idMovie idComment : string)
| CommentT_POST (request : Request) (idMovie idComment : string)
| CommentT_DELETE (idMovie idComment : string)
| CommentT_PUT (request : Request) (idMovie idComment : string).

Definition run_handler (h : handler) : M Response :=
  match h with
  | Theaters_GET => TheatersRoute.GET
  | Movies_GET => MoviesRoute.GET
  | Movies_POST => MoviesRoute.POST
  | Movies_PUT => MoviesRoute.PUT
  | Movies_DELETE => MoviesRoute.DELETE
  | Theater_GET id => TheaterRoute.GET id
  | TheaterT_GET id => TheaterRouteT.GET id
  | Comments_GET idMovie => CommentsRoute.GET idMovie
  | Comment_GET idMovie idComment => CommentRoute.GET idMovie idComment
  | Comment_POST request idMovie idComment =>
      CommentRoute.POST request idMovie idComment
  | Comment_DELETE idMovie idComment => CommentRoute.DELETE idMovie idComment
  | Comment_PUT request idMovie idComment =>
      CommentRoute.PUT request idMovie idComment
  | CommentT_GET idMovie idComment => CommentRouteT.GET idMovie idComment
  | CommentT_POST request idMovie idComment =>
      CommentRouteT.POST request idMovie idComment
  | CommentT_DELETE idMovie idComment =>
      CommentRouteT.DELETE idMovie idComment
  | CommentT_PUT request idMovie idComment =>
      CommentRouteT.PUT request idMovie idComment
  end.

(** The handler answers 400 and leaves the world as it found it: the store
    is unchanged and no store call is added to [calls]. *)
Definition rejects_400 (h : M Response) (w : World) : Prop :=
  exists r, h w = (Ok r, w) /\ status (body r) = 400%Z.

(** The handler answers 500 and leaves the world as it found it. *)
Definition fails_500 (h : M Response) (w : World) : Prop :=
  exists r, h w = (Ok r, w) /\ status (body r) = 500%Z.

(** No document of the list satisfies the query. *)
Definition no_match (q : query) (docs : list document) : Prop :=
  Forall (fun d => matches q d = false) docs.

(** The status in the body of the response a run produced. *)
Definition status_of (run : outcome Response * World) : option Z :=
  match run with
  | (Ok r, _) => Some (status (body r))
  | (Throw _, _) => None
  end.

Definition body_of (run : outcome Response * World) : option Body :=
  match run with
  | (Ok r, _) => Some (body r)
  | (Throw _, _) => None
  end.

(** ** Tables over the handlers *)

(** The handlers of the two files that give their error responses an
    [init] with the status. *)
Definition transport_follows (h : handler) : bool :=
  match h with
  | TheaterT_GET _
  | CommentT_GET _ _
  | CommentT_POST _ _ _
  | CommentT_DELETE _ _
  | CommentT_PUT _ _ _ => true
  | _ => false
  end.

(** The collection a handler calls [updateOne] or [deleteOne] on. *)
Definition writes (h : handler) : option collection :=
  match h with
  | Comment_POST _ _ _
  | Comment_PUT _ _ _
  | Comment_DELETE _ _
  | CommentT_POST _ _ _
  | CommentT_DELETE _ _ => Some Comments
  | CommentT_PUT _ _ _ => Some Movies
  | _ => None
  end.

(** The statuses written in the responses of a handler. *)
Definition statuses (h : handler) : list Z :=
  match h with
  | Theaters_GET | Movies_GET => [200; 500]
  | Movies_POST | Movies_PUT | Movies_DELETE => [405]
  | Comments_GET _ => [200; 400; 500]
  | _ => [200; 400; 404; 500]
  end%Z.

Definition is_mutation (c : call) : bool :=
  match c with
  | CallUpdateOne _ _ _ | CallDeleteOne _ _ => true
  | _ => false
  end.

(** ** Sample data *)

Module Sample.

Definition movieA := "573a1390f29313caabcd4135".
Definition movieB := "573a1390f29313caabcd42e8".
Definition commentA := "5a9427648b0beebeb69579e7".
Definition commentB := "5a9427648b0beebeb6957a21".
Definition theaterA := "59a47286cfa9a3a73e51e72c".

Definition theater : document :=
  list_to_map [("_id", new_ObjectId theaterA); ("theaterId", VNum 1000)].

(** A movie with two embedded comments. *)
Definition movie : document :=
  list_to_map
    [("_id", new_ObjectId movieA);
     ("title", VStr "The Great Train Robbery");
     ("comments",
      VArr [obj [("_id", new_ObjectId commentB); ("text", VStr "first")];
            obj [("_id", new_ObjectId commentA); ("text", VStr "second")]])].

(** A comment on [movieB], a movie that is not in the store. *)
Definition comment : document :=
  list_to_map
    [("_id", new_ObjectId commentA);
     ("movie_id", new_ObjectId movieB);
     ("text", VStr "hello")].

Definition db : Db := mkDb [theater] [movie] [comment].

Definition world : World := mkWorld (Ok db) 1700000000000 [].

(** A store with twelve theaters. *)
Definition crowded : World :=
  mkWorld (Ok (mkDb (replicate 12 theater) [] [])) 1700000000000 [].

(** The connection promise was rejected. *)
Definition offline : World := mkWorld (Throw "connect ECONNREFUSED") 0 [].

Definition with_text (s : string) : Request :=
  mkRequest (Ok (obj [("text", VStr s)])).

(** A body that is not JSON. *)
Definition malformed : Request :=
  mkRequest (Throw "Unexpected end of JSON input").

End Sample.

(** A store where a comment is linked to a movie that exists. *)
Module Linked.

(** A comment on [Sample.movieA]. *)
Definition reply : document :=
  list_to_map
    [("_id", new_ObjectId Sample.commentB);
     ("movie_id", new_ObjectId Sample.movieA);
     ("text", VStr "nice")].

Definition db : Db :=
  mkDb [Sample.theater] [Sample.movie] [Sample.comment; reply].

Definition world : World := mkWorld (Ok db) 1700000000000 [].

End Linked.

(** * Properties *)

Ltac run :=
  cbv [try_catch bind ret throw lift await_clientPromise request_json new_Date
       find findOne updateOne deleteOne log internal_error
       clientPromise now calls json].

(** Case analysis on the innermost test the goal is stuck on. *)
Ltac split_cases :=
  repeat match goal with
    | |- context [match ?x with _ => _ end] =>
        lazymatch x with
        | context [match _ with _ => _ end] => fail
        | _ => destruct x eqn:?
        end
    end.

(** ** The store *)

Lemma filter_all_true {A} (p : A -> bool) (l : list A) :
  (forall x, p x = true) -> List.filter p l = l.
Proof.
  intros Hp. induction l as [|x l IH]; simpl; [reflexivity|].
  rewrite Hp, IH. reflexivity.
Qed.

Lemma find_docs_all (n : nat) (docs : list document) :
  find_docs [] (Some n) docs = take n docs.
Proof.
  unfold find_docs. rewrite filter_all_true; [reflexivity|].
  intros d. reflexivity.
Qed.

(** ** First match in a collection *)

Lemma findOne_docs_no_match (q : query) (docs : list document) :
  findOne_docs q docs = None <-> no_match q docs.
Proof.
  unfold findOne_docs, no_match. induction docs as [|d docs IH]; simpl.
  - split; [constructor | reflexivity].
  - destruct (matches q d) eqn:Hd.
    + split; [discriminate|]. intros H. inversion H; congruence.
    + rewrite IH. split.
      * intros H. constructor; assumption.
      * intros H. inversion H; assumption.
Qed.

Lemma deleteOne_docs_no_match (q : query) (docs : list document) :
  no_match q docs -> deleteOne_docs q docs = (docs, mkDeleteResult 0).
Proof.
  unfold no_match. intros H. induction H as [|d docs Hd _ IH]; simpl.
  - reflexivity.
  - rewrite Hd, IH. reflexivity.
Qed.

Lemma deleteOne_docs_first (q : query) (pre post : list document)
    (d : document) :
  no_match q pre -> matches q d = true ->
  deleteOne_docs q (pre ++ d :: post) = (pre ++ post, mkDeleteResult 1).
Proof.
  unfold no_match. intros Hpre Hd.
  induction Hpre as [|x pre Hx _ IH]; simpl.
  - rewrite Hd. reflexivity.
  - rewrite Hx, IH. reflexivity.
Qed.

Lemma updateOne_docs_no_match (q : query) (u : update)
    (docs : list document) :
  no_match q docs ->
  updateOne_docs q u docs = Ok (docs, mkUpdateResult 0 0).
Proof.
  unfold no_match. intros H. induction H as [|d docs Hd _ IH]; simpl.
  - reflexivity.
  - rewrite Hd, IH. reflexivity.
Qed.

Lemma updateOne_docs_first (q : query) (u : update)
    (pre post : list document) (d d' : document) :
  no_match q pre -> matches q d = true -> apply_update q u d = Ok d' ->
  updateOne_docs q u (pre ++ d :: post) =
    Ok (pre ++ d' :: post,
        mkUpdateResult 1 (if decide (d' = d) then 0 else 1)).
Proof.
  unfold no_match. intros Hpre Hd Hu.
  induction Hpre as [|x pre Hx _ IH]; simpl.
  - rewrite Hd, Hu. reflexivity.
  - rewrite Hx, IH. reflexivity.
Qed.

Lemma set_first_first (p : value -> bool) (fs o : gmap string value)
    (before after : list value) :
  Forall (fun e => p e = false) before -> p (VObj o) = true ->
  set_first p fs (before ++ VObj o :: after)
  = before ++ VObj (fs ∪ o) :: after.
Proof.
  intros Hbefore Ho. induction Hbefore as [|x before Hx _ IH]; simpl.
  - rewrite Ho. reflexivity.
  - rewrite Hx, IH. reflexivity.
Qed.

(** ** The queries of the handlers *)

Lemma matches_by_id (id : string) (d : document) :
  matches (by_id id) d = true <-> d !! "_id" = Some (new_ObjectId id).
Proof.
  unfold matches, by_id. simpl. rewrite andb_true_r.
  apply bool_decide_eq_true.
Qed.

Lemma matches_comment_of_movie (idComment idMovie : string) (d : document) :
  matches (comment_of_movie idComment idMovie) d = true
  <-> d !! "_id" = Some (new_ObjectId idComment)
      /\ d !! "movie_id" = Some (new_ObjectId idMovie).
Proof.
  unfold matches, comment_of_movie. simpl.
  rewrite andb_true_r, andb_true_iff, !bool_decide_eq_true. reflexivity.
Qed.

Lemma isValid_nonempty (id : string) :
  isValid id = true -> String.eqb id "" = false.
Proof.
  destruct id; [discriminate | reflexivity].
Qed.

(** A body that passes the test of POST is an object. *)
Lemma accepted_body_is_object (sent : value) :
  truthy (prop sent "text") || truthy (prop sent "user") = true ->
  exists fields, sent = VObj fields.
Proof.
  destruct sent; try discriminate. eauto.
Qed.

(** ** Identifiers *)

Lemma is_hex_digit_spec (c : ascii) :
  is_hex_digit c =
  existsb (Ascii.eqb c) (list_ascii_of_string "0123456789abcdefABCDEF").
Proof.
  destruct c as [[] [] [] [] [] [] [] []]; reflexivity.
Qed.

Lemma isValid_spec (id : string) :
  isValid id = true <-> String.length id = 24%nat /\ all_hex id = true.
Proof.
  unfold isValid. rewrite andb_true_iff, Nat.eqb_eq. reflexivity.
Qed.

(** ** The list handlers *)

(** C7: GET /theaters and GET /movies answer 200 with the first ten
    documents of their collection, in the order of the store, after one
    unfiltered [find] limited to 10: at most ten documents, and exactly ten
    when the collection holds more. *)
Theorem list_handlers_limit (w : World) (db : Db) :
  clientPromise w = Ok db ->
  TheatersRoute.GET w =
    (Ok (NextResponse_json
           (mkBody 200 None None
              (Some (VArr (VObj <$> take 10 (theaters db))))) None),
     log (CallFind Theaters [] (Some 10%nat)) w)
  /\ MoviesRoute.GET w =
    (Ok (NextResponse_json
           (mkBody 200 None None
              (Some (VArr (VObj <$> take 10 (movies db))))) None),
     log (CallFind Movies [] (Some 10%nat)) w)
  /\ (length (take 10 (theaters db)) <= 10)%nat
  /\ (length (take 10 (movies db)) <= 10)%nat
  /\ ((10 < length (theaters db))%nat ->
      length (take 10 (theaters db)) = 10%nat)
  /\ ((10 < length (movies db))%nat ->
      length (take 10 (movies db)) = 10%nat).
Proof.
  destruct w as [cp t cs]. simpl. intros ->.
  repeat split.
  - unfold TheatersRoute.GET. run. rewrite find_docs_all. reflexivity.
  - unfold MoviesRoute.GET. run. rewrite find_docs_all. reflexivity.
  - rewrite length_take. lia.
  - rewrite length_take. lia.
  - intros H. rewrite length_take. lia.
  - intros H. rewrite length_take. lia.
Qed.

Lemma list_handlers_limit_witness :
  clientPromise Sample.crowded
  = Ok (mkDb (replicate 12 Sample.theater) [] [])
  /\ status_of (TheatersRoute.GET Sample.crowded) = Some 200%Z
  /\ length (take 10 (replicate 12 Sample.theater)) = 10%nat.
Proof.
  split; [reflexivity|].
  destruct (list_handlers_limit Sample.crowded
              (mkDb (replicate 12 Sample.theater) [] []) eq_refl)
    as (H & _ & _ & _ & Hten & _).
  split.
  - rewrite H. reflexivity.
  - apply Hten. cbn [theaters]. rewrite length_replicate. lia.
Defined.

(** C8: POST, PUT and DELETE on /movies answer 405 whatever the world, and
    leave it as it is: the store is unchanged and no store call is issued. *)
Theorem movies_method_not_allowed (w : World) :
  exists rPost rPut rDelete,
    MoviesRoute.POST w = (Ok rPost, w)
    /\ MoviesRoute.PUT w = (Ok rPut, w)
    /\ MoviesRoute.DELETE w = (Ok rDelete, w)
    /\ status (body rPost) = 405%Z
    /\ status (body rPut) = 405%Z
    /\ status (body rDelete) = 405%Z
    /\ message (body rPost) = Some "Method Not Allowed"
    /\ message (body rPut) = Some "Method Not Allowed"
    /\ message (body rDelete) = Some "Method Not Allowed".
Proof.
  do 3 eexists. repeat split; reflexivity.
Qed.

(** ** Comments of a movie *)

(** C6: GET /movies/{idMovie}/comments with a valid identifier issues one
    [find] on the comments collection for the documents whose [movie_id] is
    the identifier, never looks the movie up, and answers 200 with the
    array found under [data.comments], empty or not; whatever the world, its
    answer is never 404. *)
Theorem comments_of_movie_200 (w : World) (idMovie : string) :
  isValid idMovie = true ->
  (forall db, clientPromise w = Ok db ->
     let found :=
       List.filter (matches [(Field "movie_id", new_ObjectId idMovie)])
         (comments db) in
     CommentsRoute.GET idMovie w =
       (Ok (NextResponse_json
              (mkBody 200 None None
                 (Some (obj [("comments", VArr (VObj <$> found))]))) None),
        log (CallFind Comments [(Field "movie_id", new_ObjectId idMovie)]
               None) w)
     /\ (forall d, In d found <->
           In d (comments db)
           /\ d !! "movie_id" = Some (new_ObjectId idMovie))
     /\ (found = [] ->
         status_of (CommentsRoute.GET idMovie w) = Some 200%Z))
  /\ status_of (CommentsRoute.GET idMovie w) <> Some 404%Z
  /\ status_of (CommentsRoute.GET idMovie w) <> None.
Proof.
  intros Hid. destruct w as [cp t cs].
  unfold CommentsRoute.GET. run. rewrite Hid. cbn [negb].
  split.
  - intros db ->. cbv zeta. split; [reflexivity|]. split.
    + intros d. rewrite filter_In. unfold matches. cbn [forallb sel_matches].
      rewrite andb_true_r, bool_decide_eq_true. reflexivity.
    + intros _. reflexivity.
  - destruct cp; simpl; split; discriminate.
Qed.

Lemma comments_of_movie_200_witness :
  isValid Sample.movieA = true
  /\ status_of (CommentsRoute.GET Sample.movieA Sample.world) = Some 200%Z.
Proof.
  split; [reflexivity|].
  destruct (comments_of_movie_200 Sample.world Sample.movieA eq_refl)
    as [H _].
  destruct (H Sample.db eq_refl) as (_ & _ & Hempty).
  apply Hempty. reflexivity.
Defined.

(** ** The two variants of GET /theaters/{idTheater} *)

(** C9, as the code has it: in every world the two variants answer with the
    same status and the same data in the body (400 for an invalid
    identifier, 404 for a valid one that no theater has, 200 with
    [data.theater] otherwise, 500 when the connection is refused), and the
    bodies are equal when that status is 200 or 500.  One variant always
    travels with transport status 200, the other with the status of its
    body. *)
Theorem theater_variants_agree (w : World) (idTheater : string) :
  exists r rT w',
    TheaterRoute.GET idTheater w = (Ok r, w')
    /\ TheaterRouteT.GET idTheater w = (Ok rT, w')
    /\ status (body r) = status (body rT)
    /\ data (body r) = data (body rT)
    /\ transport r = 200%Z
    /\ transport rT = status (body rT)
    /\ (status (body r) = 200%Z \/ status (body r) = 500%Z ->
        body r = body rT)
    /\ (forall db, clientPromise w = Ok db ->
        if isValid idTheater then
          match findOne_docs (by_id idTheater) (theaters db) with
          | None => status (body r) = 404%Z
          | Some theater =>
              status (body r) = 200%Z
              /\ data (body r) = Some (obj [("theater", VObj theater)])
          end
        else status (body r) = 400%Z)
    /\ (forall msg, clientPromise w = Throw msg -> status (body r) = 500%Z).
Proof.
  destruct w as [cp t cs].
  unfold TheaterRoute.GET, TheaterRouteT.GET. run.
  destruct cp as [db|msg].
  - destruct (isValid idTheater) eqn:Hid; cbn [negb].
    + unfold coll.
      destruct (findOne_docs (by_id idTheater) (theaters db)) as [th|] eqn:Hth.
      * do 3 eexists. repeat split; try reflexivity.
        -- intros db' [= <-]. rewrite Hth. split; reflexivity.
        -- intros msg [=].
      * do 3 eexists. repeat split; try reflexivity.
        -- simpl. intros [[=]|[=]].
        -- intros db' [= <-]. rewrite Hth. reflexivity.
        -- intros msg [=].
    + do 3 eexists. repeat split; try reflexivity.
      * simpl. intros [[=]|[=]].
      * intros msg [=].
  - do 3 eexists. repeat split; try reflexivity.
    intros db [=].
Qed.

(** The bodies of the two variants differ beyond the transport status: the
    message of the 400 answer is worded differently. *)
Lemma theater_variants_bodies_differ :
  isValid "xyz" = false
  /\ body_of (TheaterRoute.GET "xyz" Sample.world)
     <> body_of (TheaterRouteT.GET "xyz" Sample.world)
  /\ (message <$> body_of (TheaterRoute.GET "xyz" Sample.world))
     = Some (Some "Invalid Theaters ID")
  /\ (message <$> body_of (TheaterRouteT.GET "xyz" Sample.world))
     = Some (Some "Invalid theater ID").
Proof.
  repeat split; try reflexivity. discriminate.
Qed.

(** ** The response envelope *)

Lemma handler_shape (h : handler) (w : World) :
  exists r w',
    run_handler h w = (Ok r, w')
    /\ (status (body r) <> 200%Z -> data (body r) = None).
Proof.
  destruct w as [cp t cs]; destruct h; cbv [run_handler];
    unfold TheatersRoute.GET, MoviesRoute.GET, MoviesRoute.POST,
      MoviesRoute.PUT, MoviesRoute.DELETE, TheaterRoute.GET,
      TheaterRouteT.GET, CommentsRoute.GET, CommentRoute.GET,
      CommentRoute.POST, CommentRoute.DELETE, CommentRoute.PUT,
      CommentRouteT.GET, CommentRouteT.POST, CommentRouteT.DELETE,
      CommentRouteT.PUT;
    run; split_cases;
    do 2 eexists; (split; [reflexivity|]);
    cbn [status data body NextResponse_json]; congruence.
Qed.

(** C10: whatever the handler, the request and the world, a response whose
    body has a status other than 200 carries no [data]. *)
Theorem no_data_unless_200 (h : handler) (w : World) (r : Response)
    (w' : World) :
  run_handler h w = (Ok r, w') ->
  status (body r) <> 200%Z ->
  data (body r) = None.
Proof.
  intros Hrun. destruct (handler_shape h w) as (r0 & w0 & Hrun0 & Hshape).
  rewrite Hrun in Hrun0. injection Hrun0 as <- <-. exact Hshape.
Qed.

Lemma no_data_unless_200_witness :
  exists r w',
    run_handler (Comment_DELETE Sample.movieA Sample.commentA) Sample.world
    = (Ok r, w')
    /\ status (body r) = 404%Z
    /\ data (body r) = None.
Proof.
  eexists _, _. split; [reflexivity|]. split; [reflexivity|].
  apply (no_data_unless_200
           (Comment_DELETE Sample.movieA Sample.commentA) Sample.world _ _
           eq_refl).
  discriminate.
Defined.

(** Every handler answers: no exception escapes its catch clause. *)
Lemma handlers_total (h : handler) (w : World) :
  exists r w', run_handler h w = (Ok r, w').
Proof.
  destruct (handler_shape h w) as (r & w' & H & _). eauto.
Qed.

(** ** Identifier validation comes first *)

Ltac reject Hid :=
  run; rewrite Hid; cbn [negb]; rewrite ?orb_true_r; cbn [orb];
  split_cases; eexists; split; reflexivity.

(** C1, as the code has it: an identifier that is not a 24-character
    hexadecimal string, in either position, makes every identifier-taking
    handler answer 400 without any store call and with the store unchanged,
    provided the handler gets as far as its validation.  POST and PUT
    (variant A) validate first and always do.  The GET and DELETE handlers
    and PUT (variant B) await the connection first, and PUT (variant B) also
    parses the body first: they answer 400 when the connection is
    established (and the body parses), and 500 otherwise, still without any
    store call. *)
Theorem invalid_id_rejected (w : World) (request : Request)
    (id other : string) :
  isValid id = false ->
  (rejects_400 (CommentRoute.POST request id other) w
   /\ rejects_400 (CommentRoute.POST request other id) w
   /\ rejects_400 (CommentRouteT.POST request id other) w
   /\ rejects_400 (CommentRouteT.POST request other id) w
   /\ rejects_400 (CommentRoute.PUT request id other) w
   /\ rejects_400 (CommentRoute.PUT request other id) w)
  /\ (forall db, clientPromise w = Ok db ->
      rejects_400 (TheaterRoute.GET id) w
      /\ rejects_400 (TheaterRouteT.GET id) w
      /\ rejects_400 (CommentsRoute.GET id) w
      /\ rejects_400 (CommentRoute.GET id other) w
      /\ rejects_400 (CommentRoute.GET other id) w
      /\ rejects_400 (CommentRouteT.GET id other) w
      /\ rejects_400 (CommentRouteT.GET other id) w
      /\ rejects_400 (CommentRoute.DELETE id other) w
      /\ rejects_400 (CommentRoute.DELETE other id) w
      /\ rejects_400 (CommentRouteT.DELETE id other) w
      /\ rejects_400 (CommentRouteT.DELETE other id) w
      /\ (forall parsed, json request = Ok parsed ->
          rejects_400 (CommentRouteT.PUT request id other) w
          /\ rejects_400 (CommentRouteT.PUT request other id) w)
      /\ (forall msg, json request = Throw msg ->
          fails_500 (CommentRouteT.PUT request id other) w
          /\ fails_500 (CommentRouteT.PUT request other id) w))
  /\ (forall msg, clientPromise w = Throw msg ->
      fails_500 (TheaterRoute.GET id) w
      /\ fails_500 (TheaterRouteT.GET id) w
      /\ fails_500 (CommentsRoute.GET id) w
      /\ fails_500 (CommentRoute.GET id other) w
      /\ fails_500 (CommentRoute.GET other id) w
      /\ fails_500 (CommentRouteT.GET id other) w
      /\ fails_500 (CommentRouteT.GET other id) w
      /\ fails_500 (CommentRoute.DELETE id other) w
      /\ fails_500 (CommentRoute.DELETE other id) w
      /\ fails_500 (CommentRouteT.DELETE id other) w
      /\ fails_500 (CommentRouteT.DELETE other id) w
      /\ fails_500 (CommentRouteT.PUT request id other) w
      /\ fails_500 (CommentRouteT.PUT request other id) w).
Proof.
  intros Hid. destruct w as [cp t cs]. destruct request as [sent].
  unfold rejects_400, fails_500.
  split; [|split].
  - unfold CommentRoute.POST, CommentRouteT.POST, CommentRoute.PUT.
    repeat split; reject Hid.
  - cbn [clientPromise json]. intros db ->.
    unfold TheaterRoute.GET, TheaterRouteT.GET, CommentsRoute.GET,
      CommentRoute.GET, CommentRouteT.GET, CommentRoute.DELETE,
      CommentRouteT.DELETE, CommentRouteT.PUT.
    repeat match goal with |- _ /\ _ => split end;
      try (intros ? ->; split);
      first [reject Hid | run; eexists; split; reflexivity].
  - cbn [clientPromise]. intros msg ->.
    unfold TheaterRoute.GET, TheaterRouteT.GET, CommentsRoute.GET,
      CommentRoute.GET, CommentRouteT.GET, CommentRoute.DELETE,
      CommentRouteT.DELETE, CommentRouteT.PUT.
    repeat split; run; eexists; split; reflexivity.
Qed.

Lemma invalid_id_rejected_witness :
  isValid "not-an-object-id" = false
  /\ rejects_400
       (CommentRoute.POST (Sample.with_text "hi") "not-an-object-id"
          Sample.commentA) Sample.world
  /\ rejects_400 (TheaterRoute.GET "not-an-object-id") Sample.world.
Proof.
  split; [reflexivity|].
  destruct (invalid_id_rejected Sample.world (Sample.with_text "hi")
              "not-an-object-id" Sample.commentA eq_refl)
    as [[Hpost _] [Hget _]].
  split; [exact Hpost|].
  destruct (Hget Sample.db eq_refl) as [Htheater _]. exact Htheater.
Defined.

(** An invalid identifier does not always give 400: GET /theaters/{id}
    answers 500 when the connection is refused, and PUT (variant B) answers
    500 when the body of the request is not JSON, as both happen before the
    identifier is validated. *)
Lemma invalid_id_not_always_400 :
  isValid "not-an-object-id" = false
  /\ status_of (TheaterRoute.GET "not-an-object-id" Sample.offline)
     = Some 500%Z
  /\ status_of
       (CommentRouteT.PUT Sample.malformed "not-an-object-id"
          Sample.commentA Sample.world)
     = Some 500%Z
  /\ ~ (forall (w : World) (request : Request) (id other : string),
          isValid id = false ->
          rejects_400 (CommentRouteT.PUT request id other) w).
Proof.
  repeat split; try reflexivity.
  intros H.
  destruct (H Sample.world Sample.malformed "not-an-object-id"
              Sample.commentA eq_refl) as (r & Hrun & Hstatus).
  vm_compute in Hrun. injection Hrun as <-. discriminate Hstatus.
Qed.

(** ** Deleting a comment *)

(** DELETE removes the first comment that has both identifiers, and only
    that one, when the movie exists. *)
Lemma delete_removes_comment (w : World) (db : Db)
    (idMovie idComment : string) (movie comment : document)
    (pre post : list document) :
  clientPromise w = Ok db ->
  isValid idMovie = true ->
  isValid idComment = true ->
  findOne_docs (by_id idMovie) (movies db) = Some movie ->
  comments db = pre ++ comment :: post ->
  no_match (comment_of_movie idComment idMovie) pre ->
  matches (comment_of_movie idComment idMovie) comment = true ->
  CommentRoute.DELETE idMovie idComment w =
    (Ok (NextResponse_json
           (mkBody 200 (Some "Comment deleted successfully") None None)
           None),
     mkWorld (Ok (mkDb (theaters db) (movies db) (pre ++ post))) (now w)
       (calls w ++ [CallFindOne Movies (by_id idMovie);
                    CallDeleteOne Comments
                      (comment_of_movie idComment idMovie)])).
Proof.
  destruct w as [cp t cs]. destruct db as [ths mvs cms].
  cbn [clientPromise comments theaters movies now calls].
  intros -> HidM HidC Hmovie -> Hpre Hcomment.
  unfold CommentRoute.DELETE. run. rewrite HidM, HidC.
  cbn [negb coll theaters movies comments]. rewrite Hmovie.
  cbn [coll theaters movies comments].
  rewrite (deleteOne_docs_first _ _ _ _ Hpre Hcomment).
  cbn [deletedCount Z.eqb set_coll theaters movies comments].
  rewrite <- app_assoc. reflexivity.
Qed.

(** C2: DELETE with two valid identifiers, when the movie exists and no
    comment with identifier [idComment] has [idMovie] as its [movie_id],
    answers 404 ("Comment not found") after looking the movie up and
    issuing the delete; the store is unchanged, so a comment with that
    identifier under another movie stays. *)
Theorem delete_cross_movie (w : World) (db : Db)
    (idMovie idComment : string) :
  clientPromise w = Ok db ->
  isValid idMovie = true ->
  isValid idComment = true ->
  (exists movie,
     In movie (movies db) /\ movie !! "_id" = Some (new_ObjectId idMovie)) ->
  (forall c, In c (comments db) ->
     c !! "_id" = Some (new_ObjectId idComment) ->
     c !! "movie_id" <> Some (new_ObjectId idMovie)) ->
  let w' :=
    mkWorld (Ok db) (now w)
      (calls w ++ [CallFindOne Movies (by_id idMovie);
                   CallDeleteOne Comments
                     (comment_of_movie idComment idMovie)]) in
  CommentRoute.DELETE idMovie idComment w =
    (Ok (NextResponse_json
           (mkBody 404 (Some "Comment not found")
              (Some "No comment found with the given ID for this movie")
              None) None), w')
  /\ CommentRouteT.DELETE idMovie idComment w =
    (Ok (NextResponse_json
           (mkBody 404 (Some "Comment not found")
              (Some "No comment found with the given ID for this movie")
              None) (Some 404%Z)), w').
Proof.
  destruct w as [cp t cs]. destruct db as [ths mvs cms]. simpl.
  intros -> HidM HidC (movie & Hin & Hmovie) Hcross.
  assert (Hfound : exists m, findOne_docs (by_id idMovie) mvs = Some m).
  { destruct (findOne_docs (by_id idMovie) mvs) as [m|] eqn:Hfind; [eauto|].
    apply findOne_docs_no_match in Hfind. unfold no_match in Hfind.
    rewrite Forall_forall in Hfind. apply list_elem_of_In in Hin.
    specialize (Hfind movie Hin).
    apply matches_by_id in Hmovie. congruence. }
  destruct Hfound as [m Hm].
  assert (Hnone : no_match (comment_of_movie idComment idMovie) cms).
  { unfold no_match. rewrite Forall_forall. intros c Hc.
    apply list_elem_of_In in Hc.
    destruct (matches (comment_of_movie idComment idMovie) c) eqn:Hmatch;
      [|reflexivity].
    apply matches_comment_of_movie in Hmatch as [H1 H2].
    destruct (Hcross c Hc H1 H2). }
  unfold CommentRoute.DELETE, CommentRouteT.DELETE. run.
  rewrite HidM, HidC. cbn [negb coll theaters movies comments].
  rewrite Hm. cbn [coll theaters movies comments].
  rewrite (deleteOne_docs_no_match _ _ Hnone).
  cbn [deletedCount Z.eqb set_coll theaters movies comments].
  rewrite <- !app_assoc. split; reflexivity.
Qed.

Lemma delete_cross_movie_witness :
  In Sample.comment (comments Sample.db)
  /\ Sample.comment !! "_id" = Some (new_ObjectId Sample.commentA)
  /\ status_of (CommentRoute.DELETE Sample.movieA Sample.commentA Sample.world)
     = Some 404%Z.
Proof.
  assert (Hmovie : exists movie,
             In movie (movies Sample.db)
             /\ movie !! "_id" = Some (new_ObjectId Sample.movieA)).
  { exists Sample.movie. split; [left; reflexivity | reflexivity]. }
  assert (Hcross : forall c, In c (comments Sample.db) ->
             c !! "_id" = Some (new_ObjectId Sample.commentA) ->
             c !! "movie_id" <> Some (new_ObjectId Sample.movieA)).
  { intros c [<-|[]] _. vm_compute. discriminate. }
  destruct (delete_cross_movie Sample.world Sample.db
              Sample.movieA Sample.commentA
              eq_refl eq_refl eq_refl Hmovie Hcross) as [H _].
  split; [left; reflexivity|]. split; [reflexivity|].
  rewrite H. reflexivity.
Defined.

(** ** The parent movie *)

(** C3, as the code has it: with two valid identifiers and no movie with
    identifier [idMovie] in the store, GET and DELETE (both variants) answer
    404 ("Movie not found") after the one lookup in the movies collection,
    with no call on the comments collection and the store unchanged.  POST
    and PUT (variant A) do not look the movie up: their one store call is
    the update of the comments collection, and they answer 404 ("Movie or
    comment not found") when no comment has both identifiers. *)
Theorem movie_must_exist (w : World) (db : Db) (idMovie idComment : string) :
  clientPromise w = Ok db ->
  isValid idMovie = true ->
  isValid idComment = true ->
  (forall m, In m (movies db) -> m !! "_id" <> Some (new_ObjectId idMovie)) ->
  let not_found init :=
    NextResponse_json
      (mkBody 404 (Some "Movie not found")
         (Some "No movie found with the given ID") None) init in
  let w' := log (CallFindOne Movies (by_id idMovie)) w in
  (CommentRoute.GET idMovie idComment w = (Ok (not_found None), w')
   /\ CommentRouteT.GET idMovie idComment w
      = (Ok (not_found (Some 404%Z)), w')
   /\ CommentRoute.DELETE idMovie idComment w = (Ok (not_found None), w')
   /\ CommentRouteT.DELETE idMovie idComment w
      = (Ok (not_found (Some 404%Z)), w'))
  /\ (forall request sent,
      json request = Ok sent ->
      truthy (prop sent "text") || truthy (prop sent "user") = true ->
      no_match (comment_of_movie idComment idMovie) (comments db) ->
      let no_comment init :=
        NextResponse_json
          (mkBody 404 (Some "Movie or comment not found") None None) init in
      let w'' :=
        mkWorld (Ok db) (now w)
          (calls w ++ [CallUpdateOne Comments
                         (comment_of_movie idComment idMovie)
                         (SetFields sent)]) in
      CommentRoute.POST request idMovie idComment w
      = (Ok (no_comment None), w'')
      /\ CommentRouteT.POST request idMovie idComment w
         = (Ok (no_comment (Some 404%Z)), w'')
      /\ CommentRoute.PUT request idMovie idComment w
         = (Ok (no_comment None), w'')).
Proof.
  destruct w as [cp t cs]. destruct db as [ths mvs cms]. simpl.
  intros -> HidM HidC Hmovie.
  assert (Hnone : findOne_docs (by_id idMovie) mvs = None).
  { apply findOne_docs_no_match. unfold no_match. rewrite Forall_forall.
    intros m Hm. apply list_elem_of_In in Hm.
    destruct (matches (by_id idMovie) m) eqn:Hmatch; [|reflexivity].
    apply matches_by_id in Hmatch. destruct (Hmovie m Hm Hmatch). }
  split.
  - unfold CommentRoute.GET, CommentRouteT.GET, CommentRoute.DELETE,
      CommentRouteT.DELETE.
    run. rewrite HidM, HidC. cbn [negb coll theaters movies comments].
    rewrite Hnone. repeat split; reflexivity.
  - intros [sent'] sent. cbn [json]. intros -> Hfields Hcomments.
    destruct (accepted_body_is_object sent Hfields) as [fields ->].
    unfold CommentRoute.POST, CommentRouteT.POST, CommentRoute.PUT.
    run.
    rewrite (isValid_nonempty _ HidM), (isValid_nonempty _ HidC), HidM, HidC.
    cbn [negb orb truthy].
    rewrite <- negb_orb, Hfields. cbn [negb coll theaters movies comments].
    rewrite (updateOne_docs_no_match _ _ _ Hcomments).
    cbn [matchedCount Z.eqb set_coll theaters movies comments].
    repeat split; reflexivity.
Qed.

Lemma movie_must_exist_witness :
  findOne_docs (by_id Sample.movieB) (movies Sample.db) = None
  /\ status_of (CommentRoute.DELETE Sample.movieB Sample.commentA Sample.world)
     = Some 404%Z.
Proof.
  assert (Hmovie : forall m, In m (movies Sample.db) ->
             m !! "_id" <> Some (new_ObjectId Sample.movieB)).
  { intros m [<-|[]]. vm_compute. discriminate. }
  destruct (movie_must_exist Sample.world Sample.db
              Sample.movieB Sample.commentA eq_refl eq_refl eq_refl Hmovie)
    as [(_ & _ & H & _) _].
  split; [reflexivity|]. rewrite H. reflexivity.
Defined.

(** POST does not check that the movie exists: with no movie [movieB] in
    the store, it updates the comment that names [movieB] as its movie and
    answers 200, after a single call, on the comments collection. *)
Lemma post_without_movie :
  isValid Sample.movieB = true
  /\ isValid Sample.commentA = true
  /\ findOne_docs (by_id Sample.movieB) (movies Sample.db) = None
  /\ status_of
       (CommentRoute.POST (Sample.with_text "edited") Sample.movieB
          Sample.commentA Sample.world)
     = Some 200%Z
  /\ calls
       (snd (CommentRoute.POST (Sample.with_text "edited") Sample.movieB
               Sample.commentA Sample.world))
     = [CallUpdateOne Comments
          (comment_of_movie Sample.commentA Sample.movieB)
          (SetFields (obj [("text", VStr "edited")]))]
  /\ status_of
       (CommentRoute.PUT (Sample.with_text "edited") Sample.movieB
          Sample.commentA Sample.world)
     = Some 200%Z.
Proof.
  repeat split; vm_compute; reflexivity.
Qed.

(** ** Updating a comment *)

(** C5: POST (both variants) and PUT (variant A), once the identifiers and
    the body pass validation, issue one [updateOne] on the comments
    collection whose update is [$set] of the entire parsed body.  On the
    first comment with both identifiers every field of the body is written,
    whatever its name, and the fields the body does not name are kept; the
    rest of the store is unchanged. *)
Theorem post_sets_whole_body (w : World) (db : Db) (request : Request)
    (fields : gmap string value) (idMovie idComment : string)
    (pre post : list document) (comment : document) :
  clientPromise w = Ok db ->
  isValid idMovie = true ->
  isValid idComment = true ->
  json request = Ok (VObj fields) ->
  truthy (prop (VObj fields) "text") || truthy (prop (VObj fields) "user")
  = true ->
  comments db = pre ++ comment :: post ->
  no_match (comment_of_movie idComment idMovie) pre ->
  matches (comment_of_movie idComment idMovie) comment = true ->
  let updated init :=
    NextResponse_json
      (mkBody 200 (Some "Comment updated successfully") None
         (Some (obj [("modified",
                      VBool (bool_decide (fields ∪ comment <> comment)));
                     ("idMovie", VStr idMovie);
                     ("idComment", VStr idComment)]))) init in
  let w' :=
    mkWorld
      (Ok (mkDb (theaters db) (movies db)
             (pre ++ (fields ∪ comment) :: post)))
      (now w)
      (calls w ++ [CallUpdateOne Comments
                     (comment_of_movie idComment idMovie)
                     (SetFields (VObj fields))]) in
  CommentRoute.POST request idMovie idComment w = (Ok (updated None), w')
  /\ CommentRouteT.POST request idMovie idComment w = (Ok (updated None), w')
  /\ CommentRoute.PUT request idMovie idComment w = (Ok (updated None), w')
  /\ (forall k v, fields !! k = Some v -> (fields ∪ comment) !! k = Some v)
  /\ (forall k, fields !! k = None ->
      (fields ∪ comment) !! k = comment !! k).
Proof.
  destruct w as [cp t cs]. destruct db as [ths mvs cms].
  destruct request as [sent].
  cbn [clientPromise json comments theaters movies now calls].
  intros -> HidM HidC -> Hfields -> Hpre Hcomment.
  split; [|split; [|split; [|split]]].
  4: { intros k v Hk. apply lookup_union_Some_l. exact Hk. }
  4: { intros k Hk. apply lookup_union_r. exact Hk. }
  all: unfold CommentRoute.POST, CommentRouteT.POST, CommentRoute.PUT; run;
    rewrite (isValid_nonempty _ HidM), (isValid_nonempty _ HidC), HidM, HidC;
    cbn [negb orb truthy];
    rewrite <- negb_orb, Hfields; cbn [negb coll theaters movies comments];
    rewrite (updateOne_docs_first _ (SetFields (VObj fields)) _ _ _
               (fields ∪ comment) Hpre Hcomment eq_refl);
    cbn [matchedCount modifiedCount Z.eqb set_coll theaters movies comments];
    destruct (decide (fields ∪ comment = comment)) as [Heq|Hne];
    [ rewrite bool_decide_eq_false_2 by (intros H; exact (H Heq))
    | rewrite bool_decide_eq_true_2 by exact Hne ];
    reflexivity.
Qed.

Lemma post_sets_whole_body_witness :
  matches (comment_of_movie Sample.commentA Sample.movieB) Sample.comment
  = true
  /\ status_of
       (CommentRoute.POST
          (mkRequest
             (Ok (obj [("text", VStr "edited");
                       ("movie_id", VStr Sample.movieA)])))
          Sample.movieB Sample.commentA Sample.world)
     = Some 200%Z
  /\ (list_to_map [("text", VStr "edited"); ("movie_id", VStr Sample.movieA)]
        ∪ Sample.comment : document) !! "movie_id"
     = Some (VStr Sample.movieA).
Proof.
  destruct (post_sets_whole_body Sample.world Sample.db
              (mkRequest
                 (Ok (obj [("text", VStr "edited");
                           ("movie_id", VStr Sample.movieA)])))
              (list_to_map
                 [("text", VStr "edited"); ("movie_id", VStr Sample.movieA)])
              Sample.movieB Sample.commentA [] [] Sample.comment
              eq_refl eq_refl eq_refl eq_refl eq_refl eq_refl
              (List.Forall_nil _) eq_refl)
    as (H & _ & _ & Hset & _).
  split; [reflexivity|]. split.
  - rewrite H. reflexivity.
  - apply Hset. reflexivity.
Defined.

(** ** Updating an embedded comment *)

Lemma elem_matches_embedded (idMovie idComment : string) (e : value) :
  elem_matches (CommentRouteT.embedded_comment idMovie idComment)
    "comments" e
  = elem_has "_id" (new_ObjectId idComment) e.
Proof.
  unfold elem_matches, CommentRouteT.embedded_comment. cbn [forallb].
  rewrite decide_True by reflexivity. rewrite andb_true_r. reflexivity.
Qed.

Lemma matches_embedded (idMovie idComment : string) (movie : document)
    (before after : list value) (target : gmap string value) :
  movie !! "_id" = Some (new_ObjectId idMovie) ->
  movie !! "comments" = Some (VArr (before ++ VObj target :: after)) ->
  target !! "_id" = Some (new_ObjectId idComment) ->
  matches (CommentRouteT.embedded_comment idMovie idComment) movie = true.
Proof.
  intros Hid Hcomments Htarget.
  unfold matches, CommentRouteT.embedded_comment. cbn [forallb sel_matches].
  rewrite Hcomments, andb_true_r, andb_true_iff. split.
  - apply bool_decide_eq_true. exact Hid.
  - rewrite existsb_app. cbn [existsb elem_has].
    rewrite (bool_decide_eq_true_2 _ Htarget), orb_true_r. reflexivity.
Qed.

Lemma set_text_fields (text date : value) (o : gmap string value) :
  list_to_map [("text", text); ("updatedAt", date)] ∪ o
  = <["text" := text]> (<["updatedAt" := date]> o).
Proof.
  cbn [list_to_map foldr fst snd].
  rewrite <- !insert_union_l, (left_id_L ∅ (∪)). reflexivity.
Qed.

(** C4, as the code has it: PUT (variant B) with valid identifiers and a
    body whose [text] is a non-empty string, on the first movie with
    identifier [idMovie] whose [comments] array holds an element with
    identifier [idComment], sets [text] and [updatedAt] of the first such
    element and nothing else: the other elements of the array, the other
    fields of the movie, the other movies and the other collections are
    unchanged.  The answer is 200 "Comment updated successfully" with no
    [data]. *)
Theorem put_embedded_comment (w : World) (db : Db) (request : Request)
    (fields : gmap string value) (s : string) (idMovie idComment : string)
    (pre post : list document) (movie : document)
    (before after : list value) (target : gmap string value) :
  clientPromise w = Ok db ->
  isValid idMovie = true ->
  isValid idComment = true ->
  json request = Ok (VObj fields) ->
  fields !! "text" = Some (VStr s) ->
  s <> "" ->
  movies db = pre ++ movie :: post ->
  no_match (CommentRouteT.embedded_comment idMovie idComment) pre ->
  movie !! "_id" = Some (new_ObjectId idMovie) ->
  movie !! "comments" = Some (VArr (before ++ VObj target :: after)) ->
  Forall (fun e => elem_has "_id" (new_ObjectId idComment) e = false)
    before ->
  target !! "_id" = Some (new_ObjectId idComment) ->
  let target' :=
    <["text" := VStr s]> (<["updatedAt" := VDate (now w)]> target) in
  let movie' :=
    <["comments" := VArr (before ++ VObj target' :: after)]> movie in
  CommentRouteT.PUT request idMovie idComment w =
    (Ok (NextResponse_json
           (mkBody 200 (Some "Comment updated successfully") None None)
           None),
     mkWorld
       (Ok (mkDb (theaters db) (pre ++ movie' :: post) (comments db)))
       (now w)
       (calls w ++ [CallUpdateOne Movies
                      (CommentRouteT.embedded_comment idMovie idComment)
                      (CommentRouteT.set_text (VStr s) (VDate (now w)))]))
  /\ (forall k, k <> "comments" -> movie' !! k = movie !! k)
  /\ (forall k, k <> "text" -> k <> "updatedAt" ->
      target' !! k = target !! k)
  /\ target' !! "text" = Some (VStr s)
  /\ target' !! "updatedAt" = Some (VDate (now w)).
Proof.
  destruct w as [cp t cs]. destruct db as [ths mvs cms].
  destruct request as [sent].
  cbn [clientPromise json comments theaters movies now calls].
  intros -> HidM HidC -> Htext Hs -> Hpre Hmovie Hcomments Hbefore Htarget.
  split; [|split; [|split; [|split]]].
  - unfold CommentRouteT.PUT. run. rewrite HidM, HidC.
    cbn [negb get_prop prop]. rewrite Htext.
    cbn [default from_option id truthy is_string orb negb].
    assert (Hne : String.eqb s "" = false)
      by (apply String.eqb_neq; exact Hs).
    rewrite Hne. cbn [negb orb coll theaters movies comments].
    erewrite updateOne_docs_first;
      [ | exact Hpre
        | apply (matches_embedded _ _ _ _ _ _ Hmovie Hcomments Htarget)
        | unfold CommentRouteT.set_text; cbn [apply_update];
          rewrite Hcomments; reflexivity ].
    cbn [matchedCount Z.eqb set_coll theaters movies comments].
    rewrite set_first_first, set_text_fields.
    + reflexivity.
    + eapply Forall_impl; [exact Hbefore|]. intros e He. cbn beta.
      rewrite elem_matches_embedded. exact He.
    + rewrite elem_matches_embedded. cbn [elem_has].
      apply bool_decide_eq_true_2. exact Htarget.
  - intros k Hk. apply lookup_insert_ne. congruence.
  - intros k Hk1 Hk2. rewrite !lookup_insert_ne by congruence. reflexivity.
  - apply lookup_insert_eq.
  - rewrite lookup_insert_ne by discriminate. apply lookup_insert_eq.
Qed.

Lemma put_embedded_comment_witness :
  "updated" <> ""
  /\ Sample.movie !! "_id" = Some (new_ObjectId Sample.movieA)
  /\ status_of
       (CommentRouteT.PUT (Sample.with_text "updated") Sample.movieA
          Sample.commentA Sample.world)
     = Some 200%Z.
Proof.
  assert (Hs : "updated" <> "") by discriminate.
  assert (Hid : Sample.movie !! "_id" = Some (new_ObjectId Sample.movieA))
    by reflexivity.
  assert (Hcomments :
      Sample.movie !! "comments"
      = Some (VArr ([obj [("_id", new_ObjectId Sample.commentB);
                          ("text", VStr "first")]]
                    ++ VObj (list_to_map
                               [("_id", new_ObjectId Sample.commentA);
                                ("text", VStr "second")]) :: [])))
    by reflexivity.
  assert (Hbefore :
      Forall (fun e => elem_has "_id" (new_ObjectId Sample.commentA) e = false)
        [obj [("_id", new_ObjectId Sample.commentB); ("text", VStr "first")]])
    by (constructor; [reflexivity | constructor]).
  destruct (put_embedded_comment Sample.world Sample.db
              (Sample.with_text "updated")
              (list_to_map [("text", VStr "updated")]) "updated"
              Sample.movieA Sample.commentA [] [] Sample.movie _ _ _
              eq_refl eq_refl eq_refl eq_refl eq_refl Hs eq_refl
              (List.Forall_nil _) Hid Hcomments Hbefore eq_refl)
    as [H _].
  split; [exact Hs|]. split; [exact Hid|].
  rewrite H. reflexivity.
Defined.

(** A body whose [text] is the empty string is refused: PUT (variant B)
    answers 400 and changes nothing, although the movie holds an embedded
    comment with the identifier. *)
Lemma put_empty_text_rejected :
  isValid Sample.movieA = true
  /\ isValid Sample.commentA = true
  /\ matches (CommentRouteT.embedded_comment Sample.movieA Sample.commentA)
       Sample.movie = true
  /\ CommentRouteT.PUT (Sample.with_text "") Sample.movieA Sample.commentA
       Sample.world
     = (Ok (NextResponse_json
              (mkBody 400 (Some "Invalid input")
                 (Some "Comment text is required and must be a string")
                 None) (Some 400%Z)),
        Sample.world).
Proof.
  repeat split; reflexivity.
Qed.

(** ** Sanity checks of the model *)

Example isValid_canonical : isValid "573a1390f29313caabcd4135" = true.
Proof. reflexivity. Qed.

Example isValid_upper_case : isValid "573A1390F29313CAABCD4135" = true.
Proof. reflexivity. Qed.

Example isValid_short : isValid "573a1390f29313caabcd413" = false.
Proof. reflexivity. Qed.

Example isValid_not_hex : isValid "573a1390f29313caabcd413g" = false.
Proof. reflexivity. Qed.

Example new_ObjectId_case :
  new_ObjectId "573A1390F29313CAABCD4135"
  = new_ObjectId "573a1390f29313caabcd4135".
Proof. reflexivity. Qed.

Example sample_runs :
  status_of (CommentRoute.GET Sample.movieA Sample.commentA Sample.world)
  = Some 404%Z
  /\ status_of (TheaterRoute.GET Sample.theaterA Sample.world) = Some 200%Z
  /\ status_of (TheaterRouteT.GET Sample.movieA Sample.world) = Some 404%Z.
Proof. repeat split; reflexivity. Qed.

Example put_variant_b_null_body :
  status_of
    (CommentRouteT.PUT (mkRequest (Ok VNull)) Sample.movieA Sample.commentA
       Sample.world)
  = Some 500%Z.
Proof. reflexivity. Qed.

(** * Further properties of the handlers *)

(** ** What the store primitives keep *)

Lemma updateOne_docs_unmatched (q : query) (u : update)
    (docs docs' : list document) (r : UpdateResult) :
  updateOne_docs q u docs = Ok (docs', r) ->
  (matchedCount r =? 0)%Z = true ->
  docs' = docs.
Proof.
  revert docs' r. induction docs as [|d docs IH]; intros docs' r; simpl.
  - intros [= <- <-] _. reflexivity.
  - destruct (matches q d).
    + destruct (apply_update q u d); [|discriminate].
      intros [= <- <-]. discriminate.
    + destruct (updateOne_docs q u docs) as [[rest r0]|]; [|discriminate].
      intros [= <- <-] Hr. rewrite (IH rest r0 eq_refl Hr). reflexivity.
Qed.

Lemma updateOne_docs_length (q : query) (u : update)
    (docs docs' : list document) (r : UpdateResult) :
  updateOne_docs q u docs = Ok (docs', r) -> length docs' = length docs.
Proof.
  revert docs' r. induction docs as [|d docs IH]; intros docs' r; simpl.
  - intros [= <- <-]. reflexivity.
  - destruct (matches q d).
    + destruct (apply_update q u d); [|discriminate].
      intros [= <- <-]. reflexivity.
    + destruct (updateOne_docs q u docs) as [[rest r0]|]; [|discriminate].
      intros [= <- <-]. simpl. rewrite (IH rest r0 eq_refl). reflexivity.
Qed.

Lemma deleteOne_docs_unmatched (q : query) (docs docs' : list document)
    (r : DeleteResult) :
  deleteOne_docs q docs = (docs', r) ->
  (deletedCount r =? 0)%Z = true ->
  docs' = docs.
Proof.
  revert docs' r. induction docs as [|d docs IH]; intros docs' r; simpl.
  - intros [= <- <-] _. reflexivity.
  - destruct (matches q d).
    + intros [= <- <-]. discriminate.
    + destruct (deleteOne_docs q docs) as [rest r0].
      intros [= <- <-] Hr. rewrite (IH rest r0 eq_refl Hr). reflexivity.
Qed.

Lemma deleteOne_docs_length (q : query) (docs docs' : list document)
    (r : DeleteResult) :
  deleteOne_docs q docs = (docs', r) ->
  (deletedCount r = 0%Z /\ length docs' = length docs)
  \/ (deletedCount r = 1%Z /\ S (length docs') = length docs).
Proof.
  revert docs' r. induction docs as [|d docs IH]; intros docs' r; simpl.
  - intros [= <- <-]. left. split; reflexivity.
  - destruct (matches q d).
    + intros [= <- <-]. right. split; reflexivity.
    + destruct (deleteOne_docs q docs) as [rest r0].
      intros [= <- <-]. simpl.
      destruct (IH rest r0 eq_refl) as [[H1 H2]|[H1 H2]]; [left|right];
        (split; [assumption | congruence]).
Qed.

Ltac unfold_handlers :=
  cbv [run_handler];
  unfold TheatersRoute.GET, MoviesRoute.GET, MoviesRoute.POST,
    MoviesRoute.PUT, MoviesRoute.DELETE, TheaterRoute.GET,
    TheaterRouteT.GET, CommentsRoute.GET, CommentRoute.GET,
    CommentRoute.POST, CommentRoute.DELETE, CommentRoute.PUT,
    CommentRouteT.GET, CommentRouteT.POST, CommentRouteT.DELETE,
    CommentRouteT.PUT.

(** Every path through every handler: the goal [exists r w', run = (Ok r,
    w') /\ P r w'] becomes [P] of the response and world of each path. *)
Ltac each_path :=
  cbn [transport_follows writes statuses];
  unfold_handlers; run; split_cases;
  do 2 eexists; (split; [reflexivity|]).

(** ** Transport status *)

Lemma transport_shape (h : handler) (w : World) :
  exists r w',
    run_handler h w = (Ok r, w')
    /\ transport r
       = if transport_follows h then status (body r) else 200%Z.
Proof.
  destruct w as [cp t cs]; destruct h; each_path; reflexivity.
Qed.

(** X1: the handlers of the two files that pass an [init] send every
    response with the status of its body as transport status; all the other
    handlers send every response, errors included, with transport status
    200. *)
Theorem transport_convention (h : handler) (w : World) (r : Response)
    (w' : World) :
  run_handler h w = (Ok r, w') ->
  transport r = if transport_follows h then status (body r) else 200%Z.
Proof.
  intros Hrun. destruct (transport_shape h w) as (r0 & w0 & Hrun0 & H).
  rewrite Hrun in Hrun0. injection Hrun0 as <- <-. exact H.
Qed.

Lemma transport_convention_witness :
  exists r w',
    run_handler (CommentT_DELETE Sample.movieA Sample.commentA) Sample.world
    = (Ok r, w')
    /\ transport r = 404%Z.
Proof.
  eexists _, _. split; [reflexivity|].
  rewrite (transport_convention
             (CommentT_DELETE Sample.movieA Sample.commentA) Sample.world _ _
             eq_refl).
  reflexivity.
Defined.

(** ** Status codes *)

Lemma status_shape (h : handler) (w : World) :
  exists r w',
    run_handler h w = (Ok r, w') /\ In (status (body r)) (statuses h).
Proof.
  destruct w as [cp t cs]; destruct h; each_path;
    cbn [status body NextResponse_json statuses In]; tauto.
Qed.

(** X2: the status in the body of a response is one of those of its
    handler: 200 or 500 for the two list handlers, 405 for the other verbs
    on /movies, 200, 400 or 500 for the comments of a movie, and 200, 400,
    404 or 500 for the handlers that take the identifier of a theater or of
    a comment. *)
Theorem status_codes (h : handler) (w : World) (r : Response) (w' : World) :
  run_handler h w = (Ok r, w') -> In (status (body r)) (statuses h).
Proof.
  intros Hrun. destruct (status_shape h w) as (r0 & w0 & Hrun0 & H).
  rewrite Hrun in Hrun0. injection Hrun0 as <- <-. exact H.
Qed.

Lemma status_codes_witness :
  exists r w',
    run_handler Movies_GET Sample.offline = (Ok r, w')
    /\ status (body r) = 500%Z
    /\ In (status (body r)) [200%Z; 500%Z].
Proof.
  eexists _, _. split; [reflexivity|]. split; [reflexivity|].
  apply (status_codes Movies_GET Sample.offline _ _ eq_refl).
Defined.

(** ** What a request can do to the store *)

Lemma set_coll_same (c : collection) (db : Db) : set_coll c (coll c db) db = db.
Proof. destruct db, c; reflexivity. Qed.

Lemma coll_set_coll_other (c c' : collection) (docs : list document)
    (db : Db) :
  c <> c' -> coll c' (set_coll c docs db) = coll c' db.
Proof. destruct c, c'; intros H; try reflexivity; destruct H; reflexivity. Qed.

Lemma coll_set_coll (c : collection) (docs : list document) (db : Db) :
  coll c (set_coll c docs db) = docs.
Proof. destruct c; reflexivity. Qed.

(** Use what the store primitives returned on a path that went through
    them. *)
Ltac unmatched :=
  repeat match goal with
    | H : updateOne_docs _ _ _ = Ok (?docs, ?r),
      H' : (matchedCount ?r =? 0)%Z = true |- _ =>
        apply (updateOne_docs_unmatched _ _ _ _ _ H) in H'; subst docs
    | H : deleteOne_docs _ _ = (?docs, ?r),
      H' : (deletedCount ?r =? 0)%Z = true |- _ =>
        apply (deleteOne_docs_unmatched _ _ _ _ H) in H'; subst docs
    end.

Lemma failure_shape (h : handler) (w : World) :
  exists r w',
    run_handler h w = (Ok r, w')
    /\ (status (body r) <> 200%Z -> clientPromise w' = clientPromise w).
Proof.
  destruct w as [cp t cs]; destruct h; each_path;
    cbn [status body NextResponse_json clientPromise]; intros Hstatus;
    try reflexivity; try congruence;
    unmatched; rewrite set_coll_same; reflexivity.
Qed.

(** X3: a request that is not answered 200 leaves the store as it was,
    whatever the handler: a 400, 404, 405 or 500 answer never comes with a
    change of a document. *)
Theorem failure_leaves_store (h : handler) (w : World) (r : Response)
    (w' : World) :
  run_handler h w = (Ok r, w') ->
  status (body r) <> 200%Z ->
  clientPromise w' = clientPromise w.
Proof.
  intros Hrun. destruct (failure_shape h w) as (r0 & w0 & Hrun0 & H).
  rewrite Hrun in Hrun0. injection Hrun0 as <- <-. exact H.
Qed.

Lemma failure_leaves_store_witness :
  exists r w',
    run_handler
      (CommentT_PUT (Sample.with_text "x") Sample.movieB Sample.commentA)
      Sample.world
    = (Ok r, w')
    /\ status (body r) = 404%Z
    /\ clientPromise w' = Ok Sample.db.
Proof.
  eexists _, _. split; [reflexivity|]. split; [reflexivity|].
  apply (failure_leaves_store
           (CommentT_PUT (Sample.with_text "x") Sample.movieB Sample.commentA)
           Sample.world _ _ eq_refl).
  discriminate.
Defined.

Lemma frame_shape (h : handler) (w : World) (db : Db) :
  clientPromise w = Ok db ->
  exists r w' db',
    run_handler h w = (Ok r, w')
    /\ clientPromise w' = Ok db'
    /\ (forall c, writes h <> Some c -> coll c db' = coll c db)
    /\ (forall c, (length (coll c db') <= length (coll c db))%nat
                  /\ (length (coll c db) <= S (length (coll c db')))%nat)
    /\ match h with
       | Comment_DELETE _ _ | CommentT_DELETE _ _ => True
       | _ => forall c, length (coll c db') = length (coll c db)
       end.
Proof.
  destruct w as [cp t cs]. cbn [clientPromise]. intros ->.
  destruct h; cbn [writes]; unfold_handlers; run; split_cases;
    eexists _, _, _; (split; [reflexivity|]); (split; [reflexivity|]);
    repeat match goal with
      | H : updateOne_docs _ _ _ = Ok _ |- _ =>
          apply updateOne_docs_length in H
      | H : deleteOne_docs _ _ = _ |- _ =>
          apply deleteOne_docs_length in H
      end;
    (split; [|split]);
    try exact I;
    try (intros c; try intros Hc; destruct c; cbn [coll set_coll theaters movies comments] in *;
         try reflexivity; try congruence; try lia;
         intuition lia).
Qed.

(** X4: with the connection established, a handler changes at most the
    collection it calls [updateOne] or [deleteOne] on: the GET handlers and
    the verbs on /movies change nothing, POST, PUT (variant A) and DELETE
    leave the movies and theaters as they are, and PUT (variant B) leaves
    the comments and theaters as they are.  No handler adds a document, only
    DELETE removes one, and it removes at most one. *)
Theorem handler_frame (h : handler) (w : World) (db : Db) (r : Response)
    (w' : World) :
  clientPromise w = Ok db ->
  run_handler h w = (Ok r, w') ->
  exists db',
    clientPromise w' = Ok db'
    /\ (forall c, writes h <> Some c -> coll c db' = coll c db)
    /\ (forall c, (length (coll c db') <= length (coll c db))%nat
                  /\ (length (coll c db) <= S (length (coll c db')))%nat)
    /\ match h with
       | Comment_DELETE _ _ | CommentT_DELETE _ _ => True
       | _ => forall c, length (coll c db') = length (coll c db)
       end.
Proof.
  intros Hdb Hrun.
  destruct (frame_shape h w db Hdb) as (r0 & w0 & db' & Hrun0 & H).
  rewrite Hrun in Hrun0. injection Hrun0 as <- <-. exists db'. exact H.
Qed.

Lemma handler_frame_witness :
  exists r w' db',
    run_handler
      (CommentT_PUT (Sample.with_text "x") Sample.movieA Sample.commentA)
      Sample.world
    = (Ok r, w')
    /\ status (body r) = 200%Z
    /\ clientPromise w' = Ok db'
    /\ comments db' = comments Sample.db
    /\ theaters db' = theaters Sample.db.
Proof.
  destruct (handler_frame
              (CommentT_PUT (Sample.with_text "x") Sample.movieA
                 Sample.commentA)
              Sample.world Sample.db _ _ eq_refl eq_refl)
    as (db' & Hdb' & Hframe & _).
  eexists _, _, db'. split; [reflexivity|]. split; [reflexivity|].
  split; [exact Hdb'|]. split.
  - apply (Hframe Comments). discriminate.
  - apply (Hframe Theaters). discriminate.
Defined.

(** ** The store calls of a request *)

Lemma calls_shape (h : handler) (w : World) :
  exists r w',
    run_handler h w = (Ok r, w')
    /\ exists issued,
         calls w' = calls w ++ issued
         /\ (length issued <= 2)%nat
         /\ (length (List.filter is_mutation issued) <= 1)%nat
         /\ (writes h = None -> List.filter is_mutation issued = []).
Proof.
  destruct w as [cp t cs]; destruct h; each_path; cbn [calls];
    first
      [ exists []; split; [symmetry; apply app_nil_r|]
      | eexists; split; [rewrite <- ?app_assoc; reflexivity|] ];
    cbn [length List.filter is_mutation app];
    (split; [lia|]); (split; [lia|]);
    first [reflexivity | discriminate].
Qed.

(** X5: a request only adds to the store calls: at most two, of which at
    most one is an [updateOne] or a [deleteOne], and none is for the GET
    handlers and the verbs on /movies. *)
Theorem store_calls (h : handler) (w : World) (r : Response) (w' : World) :
  run_handler h w = (Ok r, w') ->
  exists issued,
    calls w' = calls w ++ issued
    /\ (length issued <= 2)%nat
    /\ (length (List.filter is_mutation issued) <= 1)%nat
    /\ (writes h = None -> List.filter is_mutation issued = []).
Proof.
  intros Hrun. destruct (calls_shape h w) as (r0 & w0 & Hrun0 & H).
  rewrite Hrun in Hrun0. injection Hrun0 as <- <-. exact H.
Qed.

Lemma store_calls_witness :
  exists r w' issued,
    run_handler (Comment_DELETE Sample.movieA Sample.commentA) Sample.world
    = (Ok r, w')
    /\ calls w' = calls Sample.world ++ issued
    /\ (length issued <= 2)%nat.
Proof.
  destruct (store_calls
              (Comment_DELETE Sample.movieA Sample.commentA) Sample.world
              _ _ eq_refl)
    as (issued & Hcalls & Hlen & _).
  eexists _, _, issued. split; [reflexivity|]. split; assumption.
Defined.

(** ** The two files of the comment route *)

(** X6: on the same request and world, GET, POST and DELETE of the two
    files of the comment route answer with equal bodies and leave the same
    world; only the transport status of their error responses differs.  PUT
    of the first file (variant A) is POST of that file. *)
Theorem comment_variants_agree (request : Request)
    (idMovie idComment : string) (w : World) :
  (body_of (CommentRoute.GET idMovie idComment w)
   = body_of (CommentRouteT.GET idMovie idComment w)
   /\ snd (CommentRoute.GET idMovie idComment w)
      = snd (CommentRouteT.GET idMovie idComment w))
  /\ (body_of (CommentRoute.POST request idMovie idComment w)
      = body_of (CommentRouteT.POST request idMovie idComment w)
      /\ snd (CommentRoute.POST request idMovie idComment w)
         = snd (CommentRouteT.POST request idMovie idComment w))
  /\ (body_of (CommentRoute.DELETE idMovie idComment w)
      = body_of (CommentRouteT.DELETE idMovie idComment w)
      /\ snd (CommentRoute.DELETE idMovie idComment w)
         = snd (CommentRouteT.DELETE idMovie idComment w))
  /\ CommentRoute.PUT request idMovie idComment w
     = CommentRoute.POST request idMovie idComment w.
Proof.
  destruct w as [cp t cs]. destruct request as [sent].
  repeat match goal with |- _ /\ _ => split end;
    try reflexivity;
    unfold CommentRoute.GET, CommentRouteT.GET, CommentRoute.POST,
      CommentRouteT.POST, CommentRoute.DELETE, CommentRouteT.DELETE;
    run; split_cases; reflexivity.
Qed.

(** ** Reading a comment *)

Lemma findOne_docs_first (q : query) (pre post : list document)
    (d : document) :
  no_match q pre -> matches q d = true ->
  findOne_docs q (pre ++ d :: post) = Some d.
Proof.
  unfold findOne_docs, no_match. intros Hpre Hd.
  induction Hpre as [|x pre Hx _ IH]; simpl.
  - rewrite Hd. reflexivity.
  - rewrite Hx. exact IH.
Qed.

Lemma findOne_docs_member (q : query) (docs : list document) (d : document) :
  In d docs -> matches q d = true -> exists d', findOne_docs q docs = Some d'.
Proof.
  intros Hin Hd.
  destruct (findOne_docs q docs) as [d'|] eqn:Hfind; [eauto|].
  apply findOne_docs_no_match in Hfind. unfold no_match in Hfind.
  rewrite Forall_forall in Hfind. apply list_elem_of_In in Hin.
  specialize (Hfind d Hin). congruence.
Qed.

Lemma no_match_cross (idMovie idComment : string) (docs : list document) :
  (forall c, In c docs ->
     c !! "_id" = Some (new_ObjectId idComment) ->
     c !! "movie_id" <> Some (new_ObjectId idMovie)) ->
  no_match (comment_of_movie idComment idMovie) docs.
Proof.
  intros Hcross. unfold no_match. rewrite Forall_forall. intros c Hc.
  apply list_elem_of_In in Hc.
  destruct (matches (comment_of_movie idComment idMovie) c) eqn:Hmatch;
    [|reflexivity].
  apply matches_comment_of_movie in Hmatch as [H1 H2].
  destruct (Hcross c Hc H1 H2).
Qed.

(** X7: GET of a comment with two valid identifiers, when a movie has
    [idMovie] and [comment] is the first comment that has [idComment] as
    [_id] and [idMovie] as [movie_id], answers 200 with that comment under
    [data.comment], after one lookup in each collection and with the store
    unchanged. *)
Theorem get_comment_found (w : World) (db : Db) (idMovie idComment : string)
    (movie comment : document) (pre post : list document) :
  clientPromise w = Ok db ->
  isValid idMovie = true ->
  isValid idComment = true ->
  In movie (movies db) ->
  movie !! "_id" = Some (new_ObjectId idMovie) ->
  comments db = pre ++ comment :: post ->
  no_match (comment_of_movie idComment idMovie) pre ->
  comment !! "_id" = Some (new_ObjectId idComment) ->
  comment !! "movie_id" = Some (new_ObjectId idMovie) ->
  let found :=
    NextResponse_json
      (mkBody 200 None None (Some (obj [("comment", VObj comment)]))) None in
  let w' :=
    mkWorld (Ok db) (now w)
      (calls w ++ [CallFindOne Movies (by_id idMovie);
                   CallFindOne Comments
                     (comment_of_movie idComment idMovie)]) in
  CommentRoute.GET idMovie idComment w = (Ok found, w')
  /\ CommentRouteT.GET idMovie idComment w = (Ok found, w').
Proof.
  destruct w as [cp t cs].
  cbn [clientPromise now calls].
  intros -> HidM HidC Hin Hmovie Hcomments Hpre Hid Hmid.
  destruct (findOne_docs_member (by_id idMovie) _ _ Hin
              (proj2 (matches_by_id _ _) Hmovie)) as [m Hm].
  assert (Hc : findOne_docs (comment_of_movie idComment idMovie)
                 (comments db) = Some comment).
  { rewrite Hcomments. apply findOne_docs_first; [exact Hpre|].
    apply matches_comment_of_movie. split; assumption. }
  unfold CommentRoute.GET, CommentRouteT.GET. run.
  rewrite HidM, HidC. cbn [negb coll]. rewrite Hm. cbn [coll]. rewrite Hc.
  rewrite <- !app_assoc. split; reflexivity.
Qed.

(** X8: GET of a comment with two valid identifiers, when a movie has
    [idMovie] and no comment with identifier [idComment] has [idMovie] as
    its [movie_id], answers 404 ("Comment not found") although a comment
    with that identifier may exist under another movie; the store is
    unchanged. *)
Theorem get_comment_cross_movie (w : World) (db : Db)
    (idMovie idComment : string) (movie : document) :
  clientPromise w = Ok db ->
  isValid idMovie = true ->
  isValid idComment = true ->
  In movie (movies db) ->
  movie !! "_id" = Some (new_ObjectId idMovie) ->
  (forall c, In c (comments db) ->
     c !! "_id" = Some (new_ObjectId idComment) ->
     c !! "movie_id" <> Some (new_ObjectId idMovie)) ->
  let not_found init :=
    NextResponse_json
      (mkBody 404 (Some "Comment not found")
         (Some "No comment found with the given ID for this movie") None)
      init in
  let w' :=
    mkWorld (Ok db) (now w)
      (calls w ++ [CallFindOne Movies (by_id idMovie);
                   CallFindOne Comments
                     (comment_of_movie idComment idMovie)]) in
  CommentRoute.GET idMovie idComment w = (Ok (not_found None), w')
  /\ CommentRouteT.GET idMovie idComment w
     = (Ok (not_found (Some 404%Z)), w').
Proof.
  destruct w as [cp t cs].
  cbn [clientPromise now calls].
  intros -> HidM HidC Hin Hmovie Hcross.
  destruct (findOne_docs_member (by_id idMovie) _ _ Hin
              (proj2 (matches_by_id _ _) Hmovie)) as [m Hm].
  assert (Hc : findOne_docs (comment_of_movie idComment idMovie)
                 (comments db) = None).
  { apply findOne_docs_no_match, no_match_cross, Hcross. }
  unfold CommentRoute.GET, CommentRouteT.GET. run.
  rewrite HidM, HidC. cbn [negb coll]. rewrite Hm. cbn [coll]. rewrite Hc.
  rewrite <- !app_assoc. split; reflexivity.
Qed.

(** ** Deleting a comment, continued *)

(** X9: DELETE with two valid identifiers, when a movie has [idMovie] and
    [comment] is the first comment that has both identifiers, answers 200
    ("Comment deleted successfully") with no [data] and removes that
    comment and no other; the movies, with the comments embedded in them,
    and the theaters are unchanged. *)
Theorem delete_removes_first_match (w : World) (db : Db)
    (idMovie idComment : string) (movie comment : document)
    (pre post : list document) :
  clientPromise w = Ok db ->
  isValid idMovie = true ->
  isValid idComment = true ->
  In movie (movies db) ->
  movie !! "_id" = Some (new_ObjectId idMovie) ->
  comments db = pre ++ comment :: post ->
  no_match (comment_of_movie idComment idMovie) pre ->
  comment !! "_id" = Some (new_ObjectId idComment) ->
  comment !! "movie_id" = Some (new_ObjectId idMovie) ->
  let deleted :=
    NextResponse_json
      (mkBody 200 (Some "Comment deleted successfully") None None) None in
  let w' :=
    mkWorld (Ok (mkDb (theaters db) (movies db) (pre ++ post))) (now w)
      (calls w ++ [CallFindOne Movies (by_id idMovie);
                   CallDeleteOne Comments
                     (comment_of_movie idComment idMovie)]) in
  CommentRoute.DELETE idMovie idComment w = (Ok deleted, w')
  /\ CommentRouteT.DELETE idMovie idComment w = (Ok deleted, w').
Proof.
  destruct w as [cp t cs]. destruct db as [ths mvs cms].
  cbn [clientPromise comments theaters movies now calls].
  intros -> HidM HidC Hin Hmovie -> Hpre Hid Hmid.
  destruct (findOne_docs_member (by_id idMovie) _ _ Hin
              (proj2 (matches_by_id _ _) Hmovie)) as [m Hm].
  assert (Hc : matches (comment_of_movie idComment idMovie) comment = true)
    by (apply matches_comment_of_movie; split; assumption).
  unfold CommentRoute.DELETE, CommentRouteT.DELETE. run.
  rewrite HidM, HidC. cbn [negb coll theaters movies comments]. rewrite Hm.
  cbn [coll theaters movies comments].
  rewrite (deleteOne_docs_first _ _ _ _ Hpre Hc).
  cbn [deletedCount Z.eqb set_coll theaters movies comments].
  rewrite <- !app_assoc. split; reflexivity.
Qed.

Lemma get_comment_found_witness :
  status_of
    (CommentRoute.GET Sample.movieA Sample.commentB Linked.world)
  = Some 200%Z
  /\ In Sample.movie (movies Linked.db).
Proof.
  assert (Hpre : no_match (comment_of_movie Sample.commentB Sample.movieA)
                   [Sample.comment])
    by (constructor; [reflexivity | constructor]).
  destruct (get_comment_found Linked.world Linked.db
              Sample.movieA Sample.commentB Sample.movie Linked.reply
              [Sample.comment] []
              eq_refl eq_refl eq_refl (or_introl eq_refl) eq_refl eq_refl
              Hpre
              eq_refl eq_refl) as [H _].
  split; [|left; reflexivity]. rewrite H. reflexivity.
Defined.

Lemma get_comment_cross_movie_witness :
  status_of
    (CommentRoute.GET Sample.movieA Sample.commentA Linked.world)
  = Some 404%Z
  /\ Sample.comment !! "_id" = Some (new_ObjectId Sample.commentA).
Proof.
  assert (Hcross : forall c, In c (comments Linked.db) ->
             c !! "_id" = Some (new_ObjectId Sample.commentA) ->
             c !! "movie_id" <> Some (new_ObjectId Sample.movieA)).
  { intros c [<-|[<-|[]]] Hid; vm_compute; vm_compute in Hid; congruence. }
  destruct (get_comment_cross_movie Linked.world Linked.db
              Sample.movieA Sample.commentA Sample.movie
              eq_refl eq_refl eq_refl (or_introl eq_refl) eq_refl Hcross)
    as [H _].
  split; [|reflexivity]. rewrite H. reflexivity.
Defined.

Lemma delete_removes_first_match_witness :
  (comments <$>
     match clientPromise
             (snd (CommentRoute.DELETE Sample.movieA Sample.commentB
                     Linked.world)) with
     | Ok db => Some db
     | Throw _ => None
     end)
  = Some [Sample.comment]
  /\ comments Linked.db = [Sample.comment; Linked.reply].
Proof.
  assert (Hpre : no_match (comment_of_movie Sample.commentB Sample.movieA)
                   [Sample.comment])
    by (constructor; [reflexivity | constructor]).
  destruct (delete_removes_first_match Linked.world Linked.db
              Sample.movieA Sample.commentB Sample.movie Linked.reply
              [Sample.comment] []
              eq_refl eq_refl eq_refl (or_introl eq_refl) eq_refl eq_refl
              Hpre
              eq_refl eq_refl) as [H _].
  split; [|reflexivity]. rewrite H. reflexivity.
Defined.

(** ** The checks of POST, in order *)

(** X10: POST (both files) and PUT (variant A) check in this order, before
    the connection is awaited and before any store call: an empty
    identifier gives 400 "Movie ID and Comment ID are required"; otherwise
    an invalid identifier gives 400 "Invalid ID format"; otherwise a body
    that cannot be parsed gives 500 with the parser's message; otherwise a
    body with neither a truthy [text] nor a truthy [user] gives 400.  In
    all four cases the world is unchanged, whether the connection is
    established or not. *)
Theorem post_checks_in_order (h : Request -> string -> string -> M Response)
    (request : Request) (idMovie idComment : string) (w : World) :
  In h [CommentRoute.POST; CommentRouteT.POST; CommentRoute.PUT] ->
  let answers b :=
    body_of (h request idMovie idComment w) = Some b
    /\ snd (h request idMovie idComment w) = w in
  (idMovie = "" \/ idComment = "" ->
   answers
     (mkBody 400 (Some "Movie ID and Comment ID are required") None None))
  /\ (idMovie <> "" -> idComment <> "" ->
      isValid idMovie = false \/ isValid idComment = false ->
      answers (mkBody 400 (Some "Invalid ID format") None None))
  /\ (isValid idMovie = true -> isValid idComment = true ->
      forall msg, json request = Throw msg ->
      answers
        (mkBody 500 (Some "Internal server error") (Some msg) None))
  /\ (isValid idMovie = true -> isValid idComment = true ->
      forall sent, json request = Ok sent ->
      truthy (prop sent "text") = false ->
      truthy (prop sent "user") = false ->
      answers
        (mkBody 400
           (Some "Request body must contain at least text or user field")
           None None)).
Proof.
  intros Hh. destruct w as [cp t cs]. destruct request as [sent0].
  cbn [json]. cbv zeta.
  assert (Hempty : forall s, s <> "" -> String.eqb s "" = false)
    by (intros s Hs; apply String.eqb_neq; exact Hs).
  repeat match goal with |- _ /\ _ => split end.
  - intros Hids.
    assert (String.eqb idMovie "" || String.eqb idComment "" = true) as He
      by (destruct Hids as [-> | ->]; [reflexivity | apply orb_true_r]).
    destruct Hh as [<-|[<-|[<-|[]]]];
      unfold CommentRoute.POST, CommentRouteT.POST, CommentRoute.PUT; run;
      rewrite He; split; reflexivity.
  - intros HM HC Hbad.
    assert (negb (isValid idMovie) || negb (isValid idComment) = true) as He
      by (destruct Hbad as [-> | ->]; [reflexivity | apply orb_true_r]).
    destruct Hh as [<-|[<-|[<-|[]]]];
      unfold CommentRoute.POST, CommentRouteT.POST, CommentRoute.PUT; run;
      rewrite (Hempty _ HM), (Hempty _ HC); cbn [orb]; rewrite He;
      split; reflexivity.
  - intros HM HC msg ->.
    destruct Hh as [<-|[<-|[<-|[]]]];
      unfold CommentRoute.POST, CommentRouteT.POST, CommentRoute.PUT; run;
      rewrite (isValid_nonempty _ HM), (isValid_nonempty _ HC), HM, HC;
      split; reflexivity.
  - intros HM HC sent -> Htext Huser.
    destruct Hh as [<-|[<-|[<-|[]]]];
      unfold CommentRoute.POST, CommentRouteT.POST, CommentRoute.PUT; run;
      rewrite (isValid_nonempty _ HM), (isValid_nonempty _ HC), HM, HC;
      rewrite Htext, Huser; cbn [negb andb orb]; rewrite orb_true_r;
      split; reflexivity.
Qed.

Lemma post_checks_in_order_witness :
  body_of
    (CommentRoute.POST (mkRequest (Ok (obj [("text", VStr "")])))
       Sample.movieA Sample.commentA Sample.offline)
  = Some
      (mkBody 400
         (Some "Request body must contain at least text or user field")
         None None).
Proof.
  destruct (post_checks_in_order CommentRoute.POST
              (mkRequest (Ok (obj [("text", VStr "")])))
              Sample.movieA Sample.commentA Sample.offline
              (or_introl eq_refl)) as (_ & _ & _ & H).
  destruct (H eq_refl eq_refl _ eq_refl eq_refl eq_refl) as [Hbody _].
  exact Hbody.
Defined.

(** ** The checks of GET, DELETE and PUT (variant B), in order *)

(** X11: once the connection is established (and, for PUT of variant B, the
    body parsed), GET, DELETE and PUT (variant B) test the identifier of
    the movie before that of the comment: an invalid [idMovie] gives 400
    "Invalid movie ID" whatever [idComment] is, and a valid [idMovie] with
    an invalid [idComment] gives 400 "Invalid comment ID".  The world is
    unchanged. *)
Theorem id_checks_in_order (h : string -> string -> M Response)
    (request : Request) (sent : value) (idMovie idComment : string)
    (w : World) (db : Db) :
  In h [CommentRoute.GET; CommentRouteT.GET; CommentRoute.DELETE;
        CommentRouteT.DELETE; CommentRouteT.PUT request] ->
  clientPromise w = Ok db ->
  json request = Ok sent ->
  let answers b :=
    body_of (h idMovie idComment w) = Some b
    /\ snd (h idMovie idComment w) = w in
  (isValid idMovie = false ->
   answers
     (mkBody 400 (Some "Invalid movie ID")
        (Some "Movie ID format is incorrect") None))
  /\ (isValid idMovie = true -> isValid idComment = false ->
      answers
        (mkBody 400 (Some "Invalid comment ID")
           (Some "Comment ID format is incorrect") None)).
Proof.
  intros Hh. destruct w as [cp t cs]. destruct request as [sent0].
  cbn [clientPromise json]. intros -> ->. cbv zeta. split.
  - intros HM.
    destruct Hh as [<-|[<-|[<-|[<-|[<-|[]]]]]];
      unfold CommentRoute.GET, CommentRouteT.GET, CommentRoute.DELETE,
        CommentRouteT.DELETE, CommentRouteT.PUT; run;
      rewrite HM; split; reflexivity.
  - intros HM HC.
    destruct Hh as [<-|[<-|[<-|[<-|[<-|[]]]]]];
      unfold CommentRoute.GET, CommentRouteT.GET, CommentRoute.DELETE,
        CommentRouteT.DELETE, CommentRouteT.PUT; run;
      rewrite HM, HC; split; reflexivity.
Qed.

Lemma id_checks_in_order_witness :
  body_of (CommentRoute.DELETE "x" "y" Sample.world)
  = Some
      (mkBody 400 (Some "Invalid movie ID")
         (Some "Movie ID format is incorrect") None).
Proof.
  destruct (id_checks_in_order CommentRoute.DELETE
              (Sample.with_text "t") _ "x" "y" Sample.world Sample.db
              (or_intror (or_intror (or_introl eq_refl))) eq_refl eq_refl)
    as [H _].
  destruct (H eq_refl) as [Hbody _]. exact Hbody.
Defined.

(** ** PUT (variant B): the body and the match *)

(** X12: PUT (variant B), with the connection established and two valid
    identifiers, refuses a body whose [text] is missing, falsy or not a
    string with 400 "Invalid input", and answers 500 when the body is
    [null], as reading [text] of it throws; in both cases no store call is
    issued and the world is unchanged. *)
Theorem put_b_checks_body (w : World) (db : Db) (request : Request)
    (sent : value) (idMovie idComment : string) :
  clientPromise w = Ok db ->
  isValid idMovie = true ->
  isValid idComment = true ->
  json request = Ok sent ->
  (sent = VNull ->
   exists msg,
     CommentRouteT.PUT request idMovie idComment w
     = (Ok (NextResponse_json
              (mkBody 500 (Some "Internal Server Error") (Some msg) None)
              (Some 500%Z)), w))
  /\ (sent <> VNull -> sent <> VUndefined ->
      truthy (prop sent "text") = false
      \/ is_string (prop sent "text") = false ->
      CommentRouteT.PUT request idMovie idComment w
      = (Ok (NextResponse_json
               (mkBody 400 (Some "Invalid input")
                  (Some "Comment text is required and must be a string")
                  None) (Some 400%Z)), w)).
Proof.
  destruct w as [cp t cs]. destruct request as [sent0].
  cbn [clientPromise json]. intros -> HM HC ->. split.
  - intros ->. eexists. unfold CommentRouteT.PUT. run.
    rewrite HM, HC. cbn [negb get_prop]. reflexivity.
  - intros Hnull Hundef Hbad.
    assert (Hget : get_prop sent "text" = Ok (prop sent "text"))
      by (destruct sent; try reflexivity; congruence).
    assert (Htest : negb (truthy (prop sent "text"))
                    || negb (is_string (prop sent "text")) = true)
      by (destruct Hbad as [-> | ->]; [reflexivity | apply orb_true_r]).
    unfold CommentRouteT.PUT. run. rewrite HM, HC. cbn [negb].
    rewrite Hget, Htest. reflexivity.
Qed.

Lemma put_b_checks_body_witness :
  status_of
    (CommentRouteT.PUT (mkRequest (Ok (obj [("text", VNum 5)])))
       Sample.movieA Sample.commentA Sample.world)
  = Some 400%Z.
Proof.
  destruct (put_b_checks_body Sample.world Sample.db
              (mkRequest (Ok (obj [("text", VNum 5)]))) _
              Sample.movieA Sample.commentA eq_refl eq_refl eq_refl eq_refl)
    as [_ H].
  rewrite H; [reflexivity | discriminate | discriminate |].
  right. reflexivity.
Defined.

Lemma existsb_none {A} (p : A -> bool) (l : list A) :
  (forall x, In x l -> p x = false) -> existsb p l = false.
Proof.
  intros H. induction l as [|x l IH]; [reflexivity|]. simpl.
  rewrite (H x (or_introl eq_refl)), IH; [reflexivity|].
  intros y Hy. apply H. right. exact Hy.
Qed.

(** X13: PUT (variant B), with the connection established, two valid
    identifiers and a non-empty string as [text], answers 404 ("Movie or
    comment not found") when no movie with identifier [idMovie] holds in
    its [comments] array an element with identifier [idComment]; its one
    store call is the update of the movies collection, and the store is
    unchanged.  The comments collection is not consulted: a comment that
    exists there only is not found. *)
Theorem put_b_not_found (w : World) (db : Db) (request : Request)
    (fields : gmap string value) (s : string) (idMovie idComment : string) :
  clientPromise w = Ok db ->
  isValid idMovie = true ->
  isValid idComment = true ->
  json request = Ok (VObj fields) ->
  fields !! "text" = Some (VStr s) ->
  s <> "" ->
  (forall m l e,
     In m (movies db) ->
     m !! "_id" = Some (new_ObjectId idMovie) ->
     m !! "comments" = Some (VArr l) ->
     In e l ->
     elem_has "_id" (new_ObjectId idComment) e = false) ->
  CommentRouteT.PUT request idMovie idComment w
  = (Ok (NextResponse_json
           (mkBody 404 (Some "Movie or comment not found")
              (Some "No matching movie or comment with the given IDs")
              None) (Some 404%Z)),
     mkWorld (Ok db) (now w)
       (calls w ++ [CallUpdateOne Movies
                      (CommentRouteT.embedded_comment idMovie idComment)
                      (CommentRouteT.set_text (VStr s) (VDate (now w)))])).
Proof.
  destruct w as [cp t cs]. destruct db as [ths mvs cms].
  destruct request as [sent].
  cbn [clientPromise json comments theaters movies now calls].
  intros -> HM HC -> Htext Hs Hnone.
  assert (Hno : no_match (CommentRouteT.embedded_comment idMovie idComment)
                  mvs).
  { unfold no_match. rewrite Forall_forall. intros m Hm.
    apply list_elem_of_In in Hm.
    unfold matches, CommentRouteT.embedded_comment.
    cbn [forallb sel_matches]. rewrite andb_true_r.
    destruct (bool_decide (m !! "_id" = Some (new_ObjectId idMovie)))
      eqn:Hid; [|reflexivity].
    apply bool_decide_eq_true in Hid. cbn [andb].
    destruct (m !! "comments") as [[]|] eqn:Hcs; try reflexivity.
    apply existsb_none. intros e He. exact (Hnone m _ e Hm Hid Hcs He). }
  unfold CommentRouteT.PUT. run. rewrite HM, HC.
  cbn [negb get_prop prop]. rewrite Htext.
  cbn [default from_option id truthy is_string orb negb].
  assert (Hne : String.eqb s "" = false)
    by (apply String.eqb_neq; exact Hs).
  rewrite Hne. cbn [negb orb coll theaters movies comments].
  rewrite (updateOne_docs_no_match _ _ _ Hno).
  cbn [matchedCount Z.eqb set_coll theaters movies comments].
  reflexivity.
Qed.

Lemma put_b_not_found_witness :
  status_of
    (CommentRouteT.PUT (Sample.with_text "edited") Sample.movieB
       Sample.commentA Sample.world)
  = Some 404%Z
  /\ In Sample.comment (comments Sample.db).
Proof.
  assert (Hs : "edited" <> "") by discriminate.
  assert (Hnone : forall m l e,
             In m (movies Sample.db) ->
             m !! "_id" = Some (new_ObjectId Sample.movieB) ->
             m !! "comments" = Some (VArr l) ->
             In e l ->
             elem_has "_id" (new_ObjectId Sample.commentA) e = false).
  { intros m l e [<-|[]] Hid. vm_compute in Hid. discriminate. }
  split; [|left; reflexivity].
  rewrite (put_b_not_found Sample.world Sample.db
             (Sample.with_text "edited")
             (list_to_map [("text", VStr "edited")]) "edited"
             Sample.movieB Sample.commentA
             eq_refl eq_refl eq_refl eq_refl eq_refl Hs Hnone).
  reflexivity.
Defined.

(** ** When the connection is refused *)

(** X14: when the connection promise is rejected, every handler that
    awaits it answers 500 with the message of the rejection, unchanged, in
    the [error] field of the body, and issues no store call: the list
    handlers, the GET and DELETE handlers and PUT (variant B) whatever the
    identifiers, and POST and PUT (variant A) once the identifiers and the
    body have passed their checks. *)
Theorem connection_error_surfaced (w : World) (msg : string)
    (request : Request) (idTheater idMovie idComment : string) :
  clientPromise w = Throw msg ->
  let answers run text :=
    body_of run = Some (mkBody 500 (Some text) (Some msg) None)
    /\ snd run = w in
  answers (TheatersRoute.GET w) "Erreur interne du serveur"
  /\ answers (MoviesRoute.GET w) "Internal Server Error"
  /\ answers (TheaterRoute.GET idTheater w) "Internal Server Error"
  /\ answers (TheaterRouteT.GET idTheater w) "Internal Server Error"
  /\ answers (CommentsRoute.GET idMovie w) "Internal Server Error"
  /\ answers (CommentRoute.GET idMovie idComment w) "Internal Server Error"
  /\ answers (CommentRouteT.GET idMovie idComment w) "Internal Server Error"
  /\ answers (CommentRoute.DELETE idMovie idComment w)
       "Internal Server Error"
  /\ answers (CommentRouteT.DELETE idMovie idComment w)
       "Internal Server Error"
  /\ answers (CommentRouteT.PUT request idMovie idComment w)
       "Internal Server Error"
  /\ (isValid idMovie = true -> isValid idComment = true ->
      forall sent, json request = Ok sent ->
      truthy (prop sent "text") || truthy (prop sent "user") = true ->
      answers (CommentRoute.POST request idMovie idComment w)
        "Internal server error"
      /\ answers (CommentRouteT.POST request idMovie idComment w)
           "Internal server error"
      /\ answers (CommentRoute.PUT request idMovie idComment w)
           "Internal server error").
Proof.
  destruct w as [cp t cs]. destruct request as [sent0].
  cbn [clientPromise json]. intros ->. cbv zeta.
  repeat match goal with |- _ /\ _ => split end;
    try (unfold TheatersRoute.GET, MoviesRoute.GET, TheaterRoute.GET,
           TheaterRouteT.GET, CommentsRoute.GET, CommentRoute.GET,
           CommentRouteT.GET, CommentRoute.DELETE, CommentRouteT.DELETE,
           CommentRouteT.PUT; run; reflexivity).
  intros HM HC sent -> Hfields.
  destruct (accepted_body_is_object sent Hfields) as [fields ->].
  unfold CommentRoute.POST, CommentRouteT.POST, CommentRoute.PUT. run.
  rewrite (isValid_nonempty _ HM), (isValid_nonempty _ HC), HM, HC.
  cbn [negb orb truthy]. rewrite <- negb_orb, Hfields. cbn [negb].
  repeat split; reflexivity.
Qed.

Lemma connection_error_surfaced_witness :
  body_of (MoviesRoute.GET Sample.offline)
  = Some
      (mkBody 500 (Some "Internal Server Error")
         (Some "connect ECONNREFUSED") None).
Proof.
  destruct (connection_error_surfaced Sample.offline "connect ECONNREFUSED"
              (Sample.with_text "t") "a" "b" "c" eq_refl)
    as (_ & [H _] & _).
  exact H.
Defined.

(** ** One request after another *)

Lemma post_runs (w : World) (db : Db) (request : Request)
    (fields : gmap string value) (idMovie idComment : string)
    (docs : list document) (r : UpdateResult) :
  clientPromise w = Ok db ->
  isValid idMovie = true ->
  isValid idComment = true ->
  json request = Ok (VObj fields) ->
  truthy (prop (VObj fields) "text") || truthy (prop (VObj fields) "user")
  = true ->
  updateOne_docs (comment_of_movie idComment idMovie)
    (SetFields (VObj fields)) (comments db) = Ok (docs, r) ->
  CommentRoute.POST request idMovie idComment w =
    (Ok (if (matchedCount r =? 0)%Z then
           NextResponse_json
             (mkBody 404 (Some "Movie or comment not found") None None) None
         else
           NextResponse_json
             (mkBody 200 (Some "Comment updated successfully") None
                (Some (obj [("modified", VBool (0 <? modifiedCount r)%Z);
                            ("idMovie", VStr idMovie);
                            ("idComment", VStr idComment)]))) None),
     mkWorld (Ok (mkDb (theaters db) (movies db) docs)) (now w)
       (calls w ++ [CallUpdateOne Comments
                      (comment_of_movie idComment idMovie)
                      (SetFields (VObj fields))])).
Proof.
  destruct w as [cp t cs]. destruct db as [ths mvs cms].
  destruct request as [sent].
  cbn [clientPromise json comments theaters movies now calls].
  intros -> HM HC -> Hfields Hupdate.
  unfold CommentRoute.POST. run.
  rewrite (isValid_nonempty _ HM), (isValid_nonempty _ HC), HM, HC.
  cbn [negb orb truthy]. rewrite <- negb_orb, Hfields.
  cbn [negb coll theaters movies comments]. rewrite Hupdate.
  cbn [set_coll theaters movies comments].
  destruct (matchedCount r =? 0)%Z; reflexivity.
Qed.

Lemma get_runs (w : World) (db : Db) (idMovie idComment : string)
    (movie : document) :
  clientPromise w = Ok db ->
  isValid idMovie = true ->
  isValid idComment = true ->
  findOne_docs (by_id idMovie) (movies db) = Some movie ->
  CommentRoute.GET idMovie idComment w =
    (Ok (match findOne_docs (comment_of_movie idComment idMovie)
                 (comments db) with
         | Some comment =>
             NextResponse_json
               (mkBody 200 None None
                  (Some (obj [("comment", VObj comment)]))) None
         | None =>
             NextResponse_json
               (mkBody 404 (Some "Comment not found")
                  (Some "No comment found with the given ID for this movie")
                  None) None
         end),
     mkWorld (Ok db) (now w)
       (calls w ++ [CallFindOne Movies (by_id idMovie);
                    CallFindOne Comments
                      (comment_of_movie idComment idMovie)])).
Proof.
  destruct w as [cp t cs]. cbn [clientPromise now calls].
  intros -> HM HC Hmovie.
  unfold CommentRoute.GET. run. rewrite HM, HC. cbn [negb coll].
  rewrite Hmovie. cbn [coll].
  destruct (findOne_docs _ (comments db)); rewrite <- !app_assoc;
    reflexivity.
Qed.

Lemma union_twice (fields comment : gmap string value) :
  fields ∪ (fields ∪ comment) = fields ∪ comment.
Proof.
  apply map_eq. intros k. rewrite !lookup_union.
  destruct (fields !! k), (comment !! k); reflexivity.
Qed.

Lemma matches_after_set (fields comment : gmap string value)
    (idMovie idComment : string) :
  fields !! "_id" = None ->
  fields !! "movie_id" = None ->
  matches (comment_of_movie idComment idMovie) comment = true ->
  matches (comment_of_movie idComment idMovie) (fields ∪ comment) = true.
Proof.
  intros Hid Hmid Hc. apply matches_comment_of_movie in Hc as [H1 H2].
  apply matches_comment_of_movie.
  rewrite !lookup_union_r by assumption. split; assumption.
Qed.

(** X15: what POST wrote, GET reads back.  After a POST that updated the
    first comment with both identifiers with a body that names neither
    [_id] nor [movie_id], GET with the same identifiers, when the movie
    exists, answers 200 with the comment as updated, the fields of the
    body over the fields it had. *)
Theorem post_then_get (w : World) (db : Db) (request : Request)
    (fields : gmap string value) (idMovie idComment : string)
    (movie comment : document) (pre post : list document) :
  clientPromise w = Ok db ->
  isValid idMovie = true ->
  isValid idComment = true ->
  json request = Ok (VObj fields) ->
  truthy (prop (VObj fields) "text") || truthy (prop (VObj fields) "user")
  = true ->
  fields !! "_id" = None ->
  fields !! "movie_id" = None ->
  In movie (movies db) ->
  movie !! "_id" = Some (new_ObjectId idMovie) ->
  comments db = pre ++ comment :: post ->
  no_match (comment_of_movie idComment idMovie) pre ->
  matches (comment_of_movie idComment idMovie) comment = true ->
  status_of (CommentRoute.POST request idMovie idComment w) = Some 200%Z
  /\ body_of
       (CommentRoute.GET idMovie idComment
          (snd (CommentRoute.POST request idMovie idComment w)))
     = Some
         (mkBody 200 None None
            (Some (obj [("comment", VObj (fields ∪ comment))]))).
Proof.
  intros Hdb HM HC Hjson Hfields Hid Hmid Hin Hmovie Hcomments Hpre Hc.
  destruct (findOne_docs_member (by_id idMovie) _ _ Hin
              (proj2 (matches_by_id _ _) Hmovie)) as [m Hm].
  rewrite (post_runs w db request fields idMovie idComment
             (pre ++ (fields ∪ comment) :: post)
             (mkUpdateResult 1
                (if decide (fields ∪ comment = comment) then 0 else 1))
             Hdb HM HC Hjson Hfields).
  2: { rewrite Hcomments.
       apply updateOne_docs_first; [assumption | assumption | reflexivity]. }
  cbn [matchedCount Z.eqb snd]. split; [reflexivity|].
  erewrite get_runs; [|reflexivity | assumption | assumption | exact Hm].
  cbn [comments body_of].
  rewrite (findOne_docs_first _ _ _ _ Hpre
             (matches_after_set _ _ _ _ Hid Hmid Hc)).
  reflexivity.
Qed.

Lemma post_then_get_witness :
  body_of
    (CommentRoute.GET Sample.movieA Sample.commentB
       (snd (CommentRoute.POST (Sample.with_text "edited") Sample.movieA
               Sample.commentB Linked.world)))
  = Some
      (mkBody 200 None None
         (Some (obj [("comment",
                      VObj (list_to_map [("text", VStr "edited")]
                              ∪ Linked.reply))])))
  /\ (list_to_map [("text", VStr "edited")] ∪ Linked.reply : document)
       !! "text" = Some (VStr "edited").
Proof.
  assert (Hpre : no_match (comment_of_movie Sample.commentB Sample.movieA)
                   [Sample.comment])
    by (constructor; [reflexivity | constructor]).
  destruct (post_then_get Linked.world Linked.db (Sample.with_text "edited")
              (list_to_map [("text", VStr "edited")])
              Sample.movieA Sample.commentB Sample.movie Linked.reply
              [Sample.comment] []
              eq_refl eq_refl eq_refl eq_refl eq_refl eq_refl eq_refl
              (or_introl eq_refl) eq_refl eq_refl Hpre eq_refl)
    as [_ H].
  split; [exact H | reflexivity].
Defined.

Lemma no_match_app (q : query) (pre post : list document) (d : document) :
  no_match q pre -> matches q d = false -> no_match q post ->
  no_match q (pre ++ d :: post).
Proof.
  unfold no_match. intros Hpre Hd Hpost.
  apply Forall_app. split; [exact Hpre|]. constructor; assumption.
Qed.

(** X16: POST is idempotent.  After a POST that updated the first comment
    with both identifiers with a body that names neither [_id] nor
    [movie_id], the same POST again answers 200 with [modified] false and
    leaves the store as the first one left it. *)
Theorem post_twice (w : World) (db : Db) (request : Request)
    (fields : gmap string value) (idMovie idComment : string)
    (comment : document) (pre post : list document) :
  clientPromise w = Ok db ->
  isValid idMovie = true ->
  isValid idComment = true ->
  json request = Ok (VObj fields) ->
  truthy (prop (VObj fields) "text") || truthy (prop (VObj fields) "user")
  = true ->
  fields !! "_id" = None ->
  fields !! "movie_id" = None ->
  comments db = pre ++ comment :: post ->
  no_match (comment_of_movie idComment idMovie) pre ->
  matches (comment_of_movie idComment idMovie) comment = true ->
  let w1 := snd (CommentRoute.POST request idMovie idComment w) in
  status_of (CommentRoute.POST request idMovie idComment w) = Some 200%Z
  /\ CommentRoute.POST request idMovie idComment w1 =
     (Ok (NextResponse_json
            (mkBody 200 (Some "Comment updated successfully") None
               (Some (obj [("modified", VBool false);
                           ("idMovie", VStr idMovie);
                           ("idComment", VStr idComment)]))) None),
      mkWorld (clientPromise w1) (now w1)
        (calls w1 ++ [CallUpdateOne Comments
                        (comment_of_movie idComment idMovie)
                        (SetFields (VObj fields))])).
Proof.
  intros Hdb HM HC Hjson Hfields Hid Hmid Hcomments Hpre Hc. cbv zeta.
  rewrite (post_runs w db request fields idMovie idComment
             (pre ++ (fields ∪ comment) :: post)
             (mkUpdateResult 1
                (if decide (fields ∪ comment = comment) then 0 else 1))
             Hdb HM HC Hjson Hfields).
  2: { rewrite Hcomments.
       apply updateOne_docs_first; [assumption | assumption | reflexivity]. }
  cbn [matchedCount Z.eqb snd status_of body status NextResponse_json].
  split; [reflexivity|].
  erewrite post_runs;
    [ | reflexivity | assumption | assumption | exact Hjson | exact Hfields
      | cbn [comments];
        apply (updateOne_docs_first _ (SetFields (VObj fields)) _ _ _
                 (fields ∪ (fields ∪ comment))
                 Hpre (matches_after_set _ _ _ _ Hid Hmid Hc) eq_refl) ].
  cbn [matchedCount modifiedCount Z.eqb clientPromise now calls theaters
       movies].
  rewrite union_twice, decide_True by reflexivity. reflexivity.
Qed.

Lemma post_twice_witness :
  status_of
    (CommentRoute.POST (Sample.with_text "edited") Sample.movieA
       Sample.commentB
       (snd (CommentRoute.POST (Sample.with_text "edited") Sample.movieA
               Sample.commentB Linked.world)))
  = Some 200%Z.
Proof.
  assert (Hpre : no_match (comment_of_movie Sample.commentB Sample.movieA)
                   [Sample.comment])
    by (constructor; [reflexivity | constructor]).
  destruct (post_twice Linked.world Linked.db (Sample.with_text "edited")
              (list_to_map [("text", VStr "edited")])
              Sample.movieA Sample.commentB Linked.reply
              [Sample.comment] []
              eq_refl eq_refl eq_refl eq_refl eq_refl eq_refl eq_refl
              eq_refl Hpre eq_refl)
    as [_ H].
  rewrite H. reflexivity.
Defined.

(** X17: a POST whose body gives [movie_id] a value other than the
    identifier of the movie detaches the comment from the movie: the first
    POST answers 200, and when no other comment has both identifiers the
    same POST again answers 404 ("Movie or comment not found"). *)
Theorem post_detaches_comment (w : World) (db : Db) (request : Request)
    (fields : gmap string value) (v : value) (idMovie idComment : string)
    (comment : document) (pre post : list document) :
  clientPromise w = Ok db ->
  isValid idMovie = true ->
  isValid idComment = true ->
  json request = Ok (VObj fields) ->
  truthy (prop (VObj fields) "text") || truthy (prop (VObj fields) "user")
  = true ->
  fields !! "movie_id" = Some v ->
  v <> new_ObjectId idMovie ->
  comments db = pre ++ comment :: post ->
  no_match (comment_of_movie idComment idMovie) pre ->
  matches (comment_of_movie idComment idMovie) comment = true ->
  no_match (comment_of_movie idComment idMovie) post ->
  let w1 := snd (CommentRoute.POST request idMovie idComment w) in
  status_of (CommentRoute.POST request idMovie idComment w) = Some 200%Z
  /\ body_of (CommentRoute.POST request idMovie idComment w1)
     = Some (mkBody 404 (Some "Movie or comment not found") None None)
  /\ clientPromise
       (snd (CommentRoute.POST request idMovie idComment w1))
     = clientPromise w1.
Proof.
  intros Hdb HM HC Hjson Hfields Hmid Hv Hcomments Hpre Hc Hpost. cbv zeta.
  rewrite (post_runs w db request fields idMovie idComment
             (pre ++ (fields ∪ comment) :: post)
             (mkUpdateResult 1
                (if decide (fields ∪ comment = comment) then 0 else 1))
             Hdb HM HC Hjson Hfields).
  2: { rewrite Hcomments.
       apply updateOne_docs_first; [assumption | assumption | reflexivity]. }
  cbn [matchedCount Z.eqb snd status_of body status NextResponse_json].
  split; [reflexivity|].
  assert (Hgone : matches (comment_of_movie idComment idMovie)
                    (fields ∪ comment) = false).
  { destruct (matches _ (fields ∪ comment)) eqn:Hm; [|reflexivity].
    apply matches_comment_of_movie in Hm as [_ Hm].
    rewrite (lookup_union_Some_l _ _ _ _ Hmid) in Hm. congruence. }
  erewrite post_runs;
    [ | reflexivity | assumption | assumption | exact Hjson | exact Hfields
      | cbn [comments];
        apply (updateOne_docs_no_match _ (SetFields (VObj fields)) _
                 (no_match_app _ _ _ _ Hpre Hgone Hpost)) ].
  cbn [matchedCount Z.eqb body_of snd clientPromise theaters movies body
       NextResponse_json].
  split; reflexivity.
Qed.

Lemma post_detaches_comment_witness :
  status_of
    (CommentRoute.POST
       (mkRequest
          (Ok (obj [("text", VStr "t"); ("movie_id", VStr Sample.movieB)])))
       Sample.movieA Sample.commentB
       (snd (CommentRoute.POST
               (mkRequest
                  (Ok (obj [("text", VStr "t");
                            ("movie_id", VStr Sample.movieB)])))
               Sample.movieA Sample.commentB Linked.world)))
  = Some 404%Z.
Proof.
  assert (Hpre : no_match (comment_of_movie Sample.commentB Sample.movieA)
                   [Sample.comment])
    by (constructor; [reflexivity | constructor]).
  assert (Hv : VStr Sample.movieB <> new_ObjectId Sample.movieA)
    by discriminate.
  destruct (post_detaches_comment Linked.world Linked.db
              (mkRequest
                 (Ok (obj [("text", VStr "t");
                           ("movie_id", VStr Sample.movieB)])))
              (list_to_map
                 [("text", VStr "t"); ("movie_id", VStr Sample.movieB)])
              (VStr Sample.movieB)
              Sample.movieA Sample.commentB Linked.reply
              [Sample.comment] []
              eq_refl eq_refl eq_refl eq_refl eq_refl eq_refl Hv
              eq_refl Hpre eq_refl (List.Forall_nil _))
    as (_ & H & _).
  unfold status_of. unfold body_of in H.
  destruct (CommentRoute.POST _ Sample.movieA Sample.commentB _)
    as [[r|] w'] in H |- *; [|discriminate].
  injection H as ->. reflexivity.
Defined.

Lemma delete_runs (w : World) (db : Db) (idMovie idComment : string)
    (movie : document) (docs : list document) (r : DeleteResult) :
  clientPromise w = Ok db ->
  isValid idMovie = true ->
  isValid idComment = true ->
  findOne_docs (by_id idMovie) (movies db) = Some movie ->
  deleteOne_docs (comment_of_movie idComment idMovie) (comments db)
  = (docs, r) ->
  CommentRoute.DELETE idMovie idComment w =
    (Ok (if (deletedCount r =? 0)%Z then
           NextResponse_json
             (mkBody 404 (Some "Comment not found")
                (Some "No comment found with the given ID for this movie")
                None) None
         else
           NextResponse_json
             (mkBody 200 (Some "Comment deleted successfully") None None)
             None),
     mkWorld (Ok (mkDb (theaters db) (movies db) docs)) (now w)
       (calls w ++ [CallFindOne Movies (by_id idMovie);
                    CallDeleteOne Comments
                      (comment_of_movie idComment idMovie)])).
Proof.
  destruct w as [cp t cs]. destruct db as [ths mvs cms].
  cbn [clientPromise comments theaters movies now calls].
  intros -> HM HC Hmovie Hdelete.
  unfold CommentRoute.DELETE. run. rewrite HM, HC.
  cbn [negb coll theaters movies comments]. rewrite Hmovie.
  cbn [coll theaters movies comments]. rewrite Hdelete.
  cbn [set_coll theaters movies comments]. rewrite <- !app_assoc.
  destruct (deletedCount r =? 0)%Z; reflexivity.
Qed.

(** X18: what DELETE removed is gone.  After a DELETE that removed the only
    comment with both identifiers, GET with the same identifiers answers
    404 ("Comment not found"), and the same DELETE again answers 404 and
    removes nothing. *)
Theorem delete_then_gone (w : World) (db : Db) (idMovie idComment : string)
    (movie comment : document) (pre post : list document) :
  clientPromise w = Ok db ->
  isValid idMovie = true ->
  isValid idComment = true ->
  In movie (movies db) ->
  movie !! "_id" = Some (new_ObjectId idMovie) ->
  comments db = pre ++ comment :: post ->
  no_match (comment_of_movie idComment idMovie) pre ->
  matches (comment_of_movie idComment idMovie) comment = true ->
  no_match (comment_of_movie idComment idMovie) post ->
  let w1 := snd (CommentRoute.DELETE idMovie idComment w) in
  let not_found :=
    mkBody 404 (Some "Comment not found")
      (Some "No comment found with the given ID for this movie") None in
  status_of (CommentRoute.DELETE idMovie idComment w) = Some 200%Z
  /\ clientPromise w1 = Ok (mkDb (theaters db) (movies db) (pre ++ post))
  /\ body_of (CommentRoute.GET idMovie idComment w1) = Some not_found
  /\ body_of (CommentRoute.DELETE idMovie idComment w1) = Some not_found
  /\ clientPromise (snd (CommentRoute.DELETE idMovie idComment w1))
     = clientPromise w1.
Proof.
  intros Hdb HM HC Hin Hmovie Hcomments Hpre Hc Hpost. cbv zeta.
  destruct (findOne_docs_member (by_id idMovie) _ _ Hin
              (proj2 (matches_by_id _ _) Hmovie)) as [m Hm].
  assert (Hrest : no_match (comment_of_movie idComment idMovie)
                    (pre ++ post)).
  { unfold no_match in *. apply Forall_app. split; assumption. }
  rewrite (delete_runs w db idMovie idComment m (pre ++ post)
             (mkDeleteResult 1) Hdb HM HC Hm).
  2: { rewrite Hcomments. apply deleteOne_docs_first; assumption. }
  cbn [deletedCount Z.eqb snd status_of body status NextResponse_json
       clientPromise].
  split; [reflexivity|]. split; [reflexivity|]. split.
  - erewrite get_runs; [|reflexivity | assumption | assumption | exact Hm].
    cbn [comments].
    rewrite (proj2 (findOne_docs_no_match _ _) Hrest). reflexivity.
  - erewrite delete_runs;
      [ | reflexivity | assumption | assumption | exact Hm
        | cbn [comments]; apply (deleteOne_docs_no_match _ _ Hrest) ].
    cbn [deletedCount Z.eqb body_of snd clientPromise theaters movies body
         NextResponse_json].
    split; reflexivity.
Qed.

Lemma delete_then_gone_witness :
  body_of
    (CommentRoute.GET Sample.movieA Sample.commentB
       (snd (CommentRoute.DELETE Sample.movieA Sample.commentB
               Linked.world)))
  = Some
      (mkBody 404 (Some "Comment not found")
         (Some "No comment found with the given ID for this movie") None).
Proof.
  assert (Hpre : no_match (comment_of_movie Sample.commentB Sample.movieA)
                   [Sample.comment])
    by (constructor; [reflexivity | constructor]).
  destruct (delete_then_gone Linked.world Linked.db
              Sample.movieA Sample.commentB Sample.movie Linked.reply
              [Sample.comment] []
              eq_refl eq_refl eq_refl (or_introl eq_refl) eq_refl eq_refl
              Hpre eq_refl (List.Forall_nil _))
    as (_ & _ & H & _).
  exact H.
Defined.
